(** * etl.py: the song and log pipelines over a model of the dataframe engine

    The program is a sequence of dataframe calls (read, select, filter,
    withColumn, SQL join, write).  The engine is not part of the
    repository; the first half of this file fixes the part of its
    behaviour the program relies on, the second half transcribes
    [process_song_data], [process_log_data] and [main] call by call.

    Conventions of the engine model:
    - a frame is a schema with its rows; analysis errors (a column that
      does not resolve) are raised by the transformation itself, errors
      of row evaluation (a Python function raising inside a udf) are kept
      in the frame and surface at the first action that runs it (a write);
    - a cell is [option Value], [None] being SQL NULL;
    - object storage maps a path (or glob) to the JSON records read
      from it, and an output location to the table written there. *)

From Stdlib Require Import ZArith Lia Bool.
From stdpp Require Import base option list strings gmap pretty.

Local Open Scope string_scope.
Local Open Scope list_scope.
Local Open Scope Z_scope.

(** ** Errors *)

Inductive Exn : Type :=
| AnalysisException (msg : string)
| PythonException (msg : string).

Inductive result (A : Type) : Type :=
| Ok (a : A)
| Raise (e : Exn).
Arguments Ok {A} a.
Arguments Raise {A} e.

Definition bind {A B} (r : result A) (k : A -> result B) : result B :=
  match r with
  | Ok a => k a
  | Raise e => Raise e
  end.

Notation "x <- r ;; k" := (bind r (fun x => k))
  (at level 100, r at next level, right associativity).

Fixpoint mapM {A B} (f : A -> result B) (l : list A) : result (list B) :=
  match l with
  | [] => Ok []
  | a :: l' => b <- f a ;; bs <- mapM f l' ;; Ok (b :: bs)
  end.

Definition is_ok {A} (r : result A) : bool :=
  match r with Ok _ => true | Raise _ => false end.

(** ** Types, values, rows *)

Inductive DataType : Type :=
| StringType | DoubleType | LongType | TimestampType
| IntegerType | BooleanType | NullType.

Record StructField := mkField
  { f_name : string; f_type : DataType; f_nullable : bool }.

Definition StructType := list StructField.

(** A double is kept as the decimal lexeme it was read from: the program
    never computes with doubles, it only moves them between tables. *)
Inductive Value : Type :=
| VString (s : string)
| VLong (z : Z)
| VDouble (lexeme : string)
| VTimestamp (micros : Z)      (* microseconds since the epoch *)
| VInt (z : Z)
| VBool (b : bool).

Definition Cell := option Value.
Definition Row := list Cell.

Global Instance DataType_eq_dec : EqDecision DataType.
Proof. solve_decision. Defined.
Global Instance Value_eq_dec : EqDecision Value.
Proof. solve_decision. Defined.
Global Instance Exn_eq_dec : EqDecision Exn.
Proof. solve_decision. Defined.

(** ** JSON records as the reader sees them: flat objects of scalars

    A record is the sequence of its fields as the tokenizer delivers
    them.  A real number is kept as the text the engine prints it as
    (the token 1.50 is [JReal "1.5"]); nested objects and arrays do not
    occur in the two sources. *)

Inductive Json : Type :=
| JNull
| JBool (b : bool)
| JInt (z : Z)
| JReal (lexeme : string)
| JStr (s : string).

Definition JsonRecord := list (string * Json).

(** The value of field [k]: when the key is repeated, the reader keeps
    the last occurrence. *)
Fixpoint json_get (k : string) (r : JsonRecord) : option Json :=
  match r with
  | [] => None
  | (k', v) :: r' =>
      match json_get k r' with
      | Some v' => Some v'
      | None => if decide (k = k') then Some v else None
      end
  end.

(** The text a scalar token is copied as when the declared type is a
    string and the token is not. *)
Definition json_text (j : Json) : string :=
  match j with
  | JNull => "null"
  | JBool true => "true"
  | JBool false => "false"
  | JInt z => pretty z
  | JReal l => l
  | JStr s => s
  end.

Definition fits_long (z : Z) : bool :=
  (- 2 ^ 63 <=? z) && (z <? 2 ^ 63).

(** Permissive coercion of one field: a null or absent field is NULL, a
    string type accepts every token as text, a numeric type accepts
    numeric tokens, and a token of the wrong kind becomes NULL. *)
Definition coerce (t : DataType) (j : option Json) : Cell :=
  match j with
  | None | Some JNull => None
  | Some j =>
      match t, j with
      | StringType, _ => Some (VString (json_text j))
      | LongType, JInt z => if fits_long z then Some (VLong z) else None
      | DoubleType, JInt z => Some (VDouble (pretty z))
      | DoubleType, JReal l => Some (VDouble l)
      | BooleanType, JBool b => Some (VBool b)
      | _, _ => None
      end
  end.

Definition from_json (s : StructType) (r : JsonRecord) : Row :=
  map (fun f => coerce (f_type f) (json_get (f_name f) r)) s.

(** ** Schema inference (a read without a schema) *)

Definition infer_type (j : Json) : DataType :=
  match j with
  | JNull => NullType
  | JBool _ => BooleanType
  | JInt _ => LongType
  | JReal _ => DoubleType
  | JStr _ => StringType
  end.

Definition merge_type (a b : DataType) : DataType :=
  match a, b with
  | NullType, t | t, NullType => t
  | LongType, DoubleType | DoubleType, LongType => DoubleType
  | _, _ => if decide (a = b) then a else StringType
  end.

(** Inferred fields are kept ordered by name. *)
Fixpoint add_field (k : string) (t : DataType) (s : StructType) : StructType :=
  match s with
  | [] => [mkField k t true]
  | f :: s' =>
      if decide (k = f_name f) then mkField k (merge_type (f_type f) t) true :: s'
      else if String.ltb k (f_name f) then mkField k t true :: f :: s'
      else f :: add_field k t s'
  end.

Definition infer_record (s : StructType) (r : JsonRecord) : StructType :=
  fold_left (fun acc kv => add_field (fst kv) (infer_type (snd kv)) acc) r s.

Definition canonicalize (f : StructField) : StructField :=
  match f_type f with
  | NullType => mkField (f_name f) StringType true
  | _ => f
  end.

Definition infer_schema (rs : list JsonRecord) : StructType :=
  map canonicalize (fold_left infer_record rs []).

(** ** Calendar fields of a timestamp

    The engine extracts calendar fields from a timestamp in the session
    time zone, on the proleptic Gregorian calendar, with ISO-8601 week
    numbering.  [Z./] and [mod] round towards minus infinity. *)

Module Calendar.

(** (year, month, day of month) of a day number counted from 1970-01-01. *)
Definition civil_from_days (days : Z) : Z * Z * Z :=
  let z := days + 719468 in
  let era := z / 146097 in
  let doe := z mod 146097 in
  let yoe := (doe - doe / 1460 + doe / 36524 - doe / 146096) / 365 in
  let doy := doe - (365 * yoe + yoe / 4 - yoe / 100) in
  let mp := (5 * doy + 2) / 153 in
  let d := doy - (153 * mp + 2) / 5 + 1 in
  let m := if mp <? 10 then mp + 3 else mp - 9 in
  let y := yoe + era * 400 + (if m <=? 2 then 1 else 0) in
  (y, m, d).

Definition days_from_civil (y m d : Z) : Z :=
  let y' := if m <=? 2 then y - 1 else y in
  let era := y' / 400 in
  let yoe := y' mod 400 in
  let doy := (153 * (if 2 <? m then m - 3 else m + 9) + 2) / 5 + d - 1 in
  let doe := yoe * 365 + yoe / 4 - yoe / 100 + doy in
  era * 146097 + doe - 719468.

Definition is_leap (y : Z) : bool :=
  (y mod 4 =? 0) && (negb (y mod 100 =? 0) || (y mod 400 =? 0)).

(** Day of the year (from 1) on which month [m] starts. *)
Definition first_day_of_year (m : Z) (leap : bool) : Z :=
  let l := if leap then 1 else 0 in
  match m with
  | 1 => 1 | 2 => 32 | 3 => 60 + l | 4 => 91 + l | 5 => 121 + l
  | 6 => 152 + l | 7 => 182 + l | 8 => 213 + l | 9 => 244 + l
  | 10 => 274 + l | 11 => 305 + l | _ => 335 + l
  end.

Definition day_of_year (y m d : Z) : Z :=
  first_day_of_year m (is_leap y) + d - 1.

(** Monday = 0 ... Sunday = 6; 1970-01-01 was a Thursday. *)
Definition iso_weekday (days : Z) : Z := (days + 3) mod 7.

(** An ISO year has 53 weeks when it starts on a Thursday, or on a
    Wednesday and is a leap year. *)
Definition weeks_in_year (y : Z) : Z :=
  let dow := iso_weekday (days_from_civil y 1 1) in
  if (dow =? 3) || ((dow =? 2) && is_leap y) then 53 else 52.

Definition week_of_year (days : Z) : Z :=
  let '(y, m, d) := civil_from_days days in
  let dow0 := iso_weekday days in
  let doy0 := day_of_year y m d - 1 in
  let doyThu0 := doy0 + (3 - dow0) in
  let alignedWeek := Z.quot doyThu0 7 in
  let firstThuDoy0 := doyThu0 - alignedWeek * 7 in
  let firstMonDoy0 := firstThuDoy0 - 3 in
  let firstMonDoy0 :=
    if firstMonDoy0 <? -3 then firstMonDoy0 + 7 else firstMonDoy0 in
  if doy0 <? firstMonDoy0 then weeks_in_year (y - 1)
  else
    let week := (doy0 - firstMonDoy0) / 7 + 1 in
    if (week =? 53)
       && negb ((firstMonDoy0 =? -3) || ((firstMonDoy0 =? -2) && is_leap y))
    then 1 else week.

Section Zone.
(** Offset of the session time zone from UTC, in seconds, at a given
    second since the epoch. *)
Variable tz : Z -> Z.

Definition local_seconds (micros : Z) : Z :=
  let s := micros / 1000000 in s + tz s.

Definition local_day (micros : Z) : Z := local_seconds micros / 86400.

Definition hour (micros : Z) : Z := (local_seconds micros mod 86400) / 3600.
Definition month (micros : Z) : Z := snd (fst (civil_from_days (local_day micros))).
Definition year (micros : Z) : Z := fst (fst (civil_from_days (local_day micros))).
Definition weekofyear (micros : Z) : Z := week_of_year (local_day micros).
(** Sunday = 1 ... Saturday = 7. *)
Definition dayofweek (micros : Z) : Z := (local_day micros + 4) mod 7 + 1.
End Zone.

End Calendar.

Definition utc : Z -> Z := fun _ => 0.

Example calendar_2000_01_01 :
  let t := 946684800000000 in
  (Calendar.year utc t, Calendar.month utc t, Calendar.hour utc t,
   Calendar.weekofyear utc t, Calendar.dayofweek utc t) = (2000, 1, 0, 52, 7).
Proof. reflexivity. Qed.

Example calendar_iso_weeks :
  map (fun ymd : Z * Z * Z =>
         Calendar.week_of_year
           (Calendar.days_from_civil (fst (fst ymd)) (snd (fst ymd)) (snd ymd)))
      [(2020, 12, 31); (2021, 1, 3); (2021, 1, 4); (2018, 12, 31);
       (2019, 12, 29); (2016, 1, 1); (2018, 11, 15); (2024, 12, 30)]
  = [53; 53; 1; 1; 52; 53; 46; 1].
Proof. reflexivity. Qed.

(** ** Columns *)

(** A column expression.  [udf f t c] is a Python function registered
    with return type [t] and applied to [c]; the function receives the
    cell ([None] for NULL) and either returns a cell or raises. *)
Inductive Column : Type :=
| col (name : string)
| lit (v : Value)
| col_eq (a b : Column)
| udf (f : Cell -> result Cell) (returnType : DataType) (arg : Column)
| F_hour (c : Column)
| F_dayofweek (c : Column)
| F_weekofyear (c : Column)
| F_month (c : Column)
| F_year (c : Column).

Fixpoint field_index (n : string) (s : StructType) : option nat :=
  match s with
  | [] => None
  | f :: s' => if decide (n = f_name f) then Some O
               else S <$> field_index n s'
  end.

Definition has_field (n : string) (s : StructType) : bool :=
  bool_decide (is_Some (field_index n s)).

Definition unresolved (n : string) : Exn :=
  AnalysisException ("cannot resolve '" +:+ n +:+ "' given input columns").

Definition type_of_value (v : Value) : DataType :=
  match v with
  | VString _ => StringType | VLong _ => LongType | VDouble _ => DoubleType
  | VTimestamp _ => TimestampType | VInt _ => IntegerType
  | VBool _ => BooleanType
  end.

(** Analysis of a column against a schema: its type, or the error. *)
Fixpoint type_of (s : StructType) (c : Column) : result DataType :=
  match c with
  | col n =>
      match field_index n s with
      | Some i => Ok (default NullType (f_type <$> s !! i))
      | None => Raise (unresolved n)
      end
  | lit v => Ok (type_of_value v)
  | col_eq a b => _ <- type_of s a ;; _ <- type_of s b ;; Ok BooleanType
  | udf _ t a => _ <- type_of s a ;; Ok t
  | F_hour a | F_dayofweek a | F_weekofyear a | F_month a | F_year a =>
      t <- type_of s a ;;
      match t with
      | TimestampType => Ok IntegerType
      | _ => Raise (AnalysisException "data type mismatch: timestamp expected")
      end
  end.

(** SQL equality: NULL when either side is NULL.  Both sides are taken
    to have the same type; the casts the engine inserts between columns
    of different types are not modelled. *)
Definition sql_eq (a b : Cell) : Cell :=
  match a, b with
  | Some x, Some y => Some (VBool (bool_decide (x = y)))
  | _, _ => None
  end.

Section Eval.
Variable tz : Z -> Z.

Definition on_timestamp (f : Z -> Z) (c : Cell) : Cell :=
  match c with
  | Some (VTimestamp t) => Some (VInt (f t))
  | _ => None
  end.

(** Value of a column on one row of a frame with schema [s]. *)
Fixpoint eval (s : StructType) (c : Column) (r : Row) : result Cell :=
  match c with
  | col n =>
      match field_index n s with
      | Some i => Ok (default None (r !! i))
      | None => Raise (unresolved n)
      end
  | lit v => Ok (Some v)
  | col_eq a b => x <- eval s a r ;; y <- eval s b r ;; Ok (sql_eq x y)
  | udf f _ a => x <- eval s a r ;; f x
  | F_hour a => x <- eval s a r ;; Ok (on_timestamp (Calendar.hour tz) x)
  | F_dayofweek a => x <- eval s a r ;; Ok (on_timestamp (Calendar.dayofweek tz) x)
  | F_weekofyear a => x <- eval s a r ;; Ok (on_timestamp (Calendar.weekofyear tz) x)
  | F_month a => x <- eval s a r ;; Ok (on_timestamp (Calendar.month tz) x)
  | F_year a => x <- eval s a r ;; Ok (on_timestamp (Calendar.year tz) x)
  end.
End Eval.

(** ** Frames and the session *)

Record DataFrame := mkFrame
  { schema : StructType;
    rows : result (list Row) }.

(** A table as written to an output location. *)
Record Table := mkTable
  { t_partitionBy : list string;
    t_schema : StructType;
    t_rows : list Row }.

(** The session handle, together with the object storage it reads and
    writes and the temporary views registered on it. *)
Record SparkSession := mkSession
  { objects : gmap string (list JsonRecord);
    tables : gmap string Table;
    views : gmap string DataFrame }.

Inductive SaveMode : Type := Append | Overwrite | ErrorIfExists | Ignore.

Record DataFrameWriter := mkWriter
  { w_df : DataFrame;
    w_mode : SaveMode;
    w_partitionBy : list string }.

Module Spark.

Definition resolve (s : StructType) (n : string) : result nat :=
  match field_index n s with
  | Some i => Ok i
  | None => Raise (unresolved n)
  end.

Definition cell_at (r : Row) (i : nat) : Cell := default None (r !! i).

Definition field_at (s : StructType) (i : nat) : StructField :=
  default (mkField "" NullType true) (s !! i).

(** [spark.read.json(path, schema=...)]: the records found under [path],
    coerced to the given schema, or to the inferred one when none is
    given. *)
Definition read_json (spark : SparkSession) (path : string)
    (sch : option StructType) : result DataFrame :=
  match objects spark !! path with
  | None => Raise (AnalysisException ("Path does not exist: " +:+ path))
  | Some recs =>
      let s := default (infer_schema recs) sch in
      Ok (mkFrame s (Ok (map (from_json s) recs)))
  end.

(** [df.select(n1, ..., nk)] *)
Definition select (df : DataFrame) (names : list string) : result DataFrame :=
  idx <- mapM (resolve (schema df)) names ;;
  Ok (mkFrame (map (field_at (schema df)) idx)
              (rs <- rows df ;; Ok (map (fun r => map (cell_at r) idx) rs))).

Definition set_field (f : StructField) (s : StructType) : StructType :=
  match field_index (f_name f) s with
  | Some i => <[i := f]> s
  | None => s ++ [f]
  end.

Definition set_cell (s : StructType) (n : string) (c : Cell) (r : Row) : Row :=
  match field_index n s with
  | Some i => <[i := c]> r
  | None => r ++ [c]
  end.

Section Transformations.
Variable tz : Z -> Z.

Definition keeps (s : StructType) (cond : Column) (r : Row) : result bool :=
  c <- eval tz s cond r ;;
  Ok (bool_decide (c = Some (VBool true))).

Fixpoint filter_rows (s : StructType) (cond : Column) (rs : list Row)
    : result (list Row) :=
  match rs with
  | [] => Ok []
  | r :: rs' =>
      b <- keeps s cond r ;;
      rest <- filter_rows s cond rs' ;;
      Ok (if b then r :: rest else rest)
  end.

(** [df.filter(cond)]: the rows on which [cond] is true (neither false
    nor NULL). *)
Definition filter (df : DataFrame) (cond : Column) : result DataFrame :=
  t <- type_of (schema df) cond ;;
  match t with
  | BooleanType =>
      Ok (mkFrame (schema df)
                  (rs <- rows df ;; filter_rows (schema df) cond rs))
  | _ => Raise (AnalysisException "filter expression is not boolean")
  end.

(** [df.withColumn(name, c)]: replaces the column of that name, or
    appends a new one. *)
Definition withColumn (df : DataFrame) (n : string) (c : Column)
    : result DataFrame :=
  t <- type_of (schema df) c ;;
  Ok (mkFrame (set_field (mkField n t true) (schema df))
              (rs <- rows df ;;
               mapM (fun r => v <- eval tz (schema df) c r ;;
                              Ok (set_cell (schema df) n v r)) rs)).
End Transformations.

(** *** monotonically_increasing_id

    The id of a row is its partition index shifted left by 33 bits plus
    its position inside the partition, as a signed 64-bit integer. *)

Definition wrap64 (z : Z) : Z := (z + 2 ^ 63) mod 2 ^ 64 - 2 ^ 63.

Definition row_id (pid i : Z) : Z := wrap64 (Z.shiftl pid 33 + i).

Fixpoint number_rows (s : StructType) (n : string) (pid i : Z)
    (p : list Row) : list Row :=
  match p with
  | [] => []
  | r :: p' =>
      set_cell s n (Some (VLong (row_id pid i))) r
      :: number_rows s n pid (i + 1) p'
  end.

Fixpoint number_partitions (s : StructType) (n : string) (pid : Z)
    (ps : list (list Row)) : list Row :=
  match ps with
  | [] => []
  | p :: ps' =>
      number_rows s n pid 0 p ++ number_partitions s n (pid + 1) ps'
  end.

(** [df.withColumn(name, monotonically_increasing_id())], the rows of
    [df] being laid out in partitions by [layout]. *)
Definition withColumn_monotonically_increasing_id
    (layout : list Row -> list (list Row))
    (df : DataFrame) (n : string) : result DataFrame :=
  Ok (mkFrame (set_field (mkField n LongType false) (schema df))
              (rs <- rows df ;;
               Ok (number_partitions (schema df) n 0 (layout rs)))).

(** *** Writer *)

Definition write (df : DataFrame) : DataFrameWriter :=
  mkWriter df ErrorIfExists [].

Definition mode (m : SaveMode) (w : DataFrameWriter) : DataFrameWriter :=
  mkWriter (w_df w) m (w_partitionBy w).

Definition partitionBy (cols : list string) (w : DataFrameWriter)
    : DataFrameWriter :=
  mkWriter (w_df w) (w_mode w) cols.

Definition put_table (path : string) (t : Table) (spark : SparkSession)
    : SparkSession :=
  mkSession (objects spark) (<[path := t]> (tables spark)) (views spark).

Definition already_exists (path : string) : Exn :=
  AnalysisException ("path " +:+ path +:+ " already exists.").

(** What a write leaves at its location: the table, or, for a
    partitioned write of a frame without rows, a directory without any
    data file, from which neither columns nor partitions can be read
    back. *)
Definition written (cols : list string) (s : StructType) (rs : list Row)
    : Table :=
  match cols, rs with
  | _ :: _, [] => mkTable [] [] []
  | _, _ => mkTable cols s rs
  end.

(** [w.parquet(path)]: the action.  The partition columns are resolved,
    the save mode is applied to what the location holds, and only then
    are the rows of the frame computed.  Of the ways a write can fail,
    only these are modelled: an unresolved partition column, the save
    mode, and rows that cannot be computed. *)
Definition parquet (w : DataFrameWriter) (path : string)
    (spark : SparkSession) : result SparkSession :=
  let df := w_df w in
  _ <- mapM (resolve (schema df)) (w_partitionBy w) ;;
  match tables spark !! path, w_mode w with
  | Some _, ErrorIfExists => Raise (already_exists path)
  | Some _, Ignore => Ok spark
  | Some old, Append =>
      rs <- rows df ;;
      Ok (put_table path
            (mkTable (t_partitionBy old) (t_schema old) (t_rows old ++ rs))
            spark)
  | _, _ =>
      rs <- rows df ;;
      Ok (put_table path (written (w_partitionBy w) (schema df) rs) spark)
  end.

(** *** Views and the songplays query *)

Definition createOrReplaceTempView (df : DataFrame) (name : string)
    (spark : SparkSession) : SparkSession :=
  mkSession (objects spark) (tables spark) (<[name := df]> (views spark)).

Definition view (spark : SparkSession) (name : string) : result DataFrame :=
  match views spark !! name with
  | Some df => Ok df
  | None => Raise (AnalysisException ("Table or view not found: " +:+ name))
  end.

Definition is_true (c : Cell) : bool := bool_decide (c = Some (VBool true)).

(** The query of [process_log_data]:
<<
   SELECT DISTINCT lt.start_time, lt.userId, lt.level, lt.sessionId,
                   lt.location, lt.userAgent, st.song_id, st.artist_id,
                   tt.year, tt.month
   FROM log_df_table lt
   INNER JOIN song_df_table st ON st.artist_name = lt.artist
   INNER JOIN time_table tt ON tt.start_time = lt.start_time
>>
    Every qualified column is resolved in its own view first; the rows
    are the distinct selected tuples of the matching triples. *)
Definition sql_songplays (spark : SparkSession) : result DataFrame :=
  lt <- view spark "log_df_table" ;;
  st <- view spark "song_df_table" ;;
  tt <- view spark "time_table" ;;
  lsel <- mapM (resolve (schema lt))
            ["start_time"; "userId"; "level"; "sessionId"; "location"; "userAgent"] ;;
  ssel <- mapM (resolve (schema st)) ["song_id"; "artist_id"] ;;
  tsel <- mapM (resolve (schema tt)) ["year"; "month"] ;;
  s_name <- resolve (schema st) "artist_name" ;;
  l_artist <- resolve (schema lt) "artist" ;;
  t_start <- resolve (schema tt) "start_time" ;;
  l_start <- resolve (schema lt) "start_time" ;;
  Ok (mkFrame
        (map (field_at (schema lt)) lsel ++ map (field_at (schema st)) ssel
         ++ map (field_at (schema tt)) tsel)
        (lrs <- rows lt ;;
         srs <- rows st ;;
         trs <- rows tt ;;
         Ok (remove_dups
               (flat_map (fun l =>
                  flat_map (fun s =>
                    if is_true (sql_eq (cell_at s s_name) (cell_at l l_artist))
                    then
                      flat_map (fun t =>
                        if is_true (sql_eq (cell_at t t_start) (cell_at l l_start))
                        then [map (cell_at l) lsel ++ map (cell_at s) ssel
                              ++ map (cell_at t) tsel]
                        else []) trs
                    else []) srs) lrs)))).

End Spark.

(** * The program (src/etl.py) *)

Import Spark.

(** ** process_song_data *)

Definition song_data_schema : StructType :=
  [ mkField "song_id" StringType true;
    mkField "year" StringType true;
    mkField "duration" DoubleType true;
    mkField "artist_id" StringType true;
    mkField "artist_name" StringType true;
    mkField "artist_location" StringType true;
    mkField "artist_latitude" DoubleType true;
    mkField "artist_longitude" DoubleType true ].

Definition song_data_path (input_data : string) : string :=
  input_data +:+ "data/song_data/song_data/*/*/*/*.json".

(** Line 69. *)
Definition songs_table (song_df : DataFrame) : result DataFrame :=
  select song_df ["song_id"; "title"; "artist_id"; "year"; "duration"].

(** Line 75. *)
Definition artists_table (song_df : DataFrame) : result DataFrame :=
  select song_df ["artist_id"; "artist_name"; "artist_location";
                  "artist_latitude"; "artist_longitude"; "num_songs"].

Definition process_song_data (spark : SparkSession)
    (input_data output_data : string) : result SparkSession :=
  let song_data := song_data_path input_data in
  song_df <- read_json spark song_data (Some song_data_schema) ;;
  songs_table <- songs_table song_df ;;
  spark <- parquet (partitionBy ["year"; "artist_id"] (write songs_table))
             (output_data +:+ "songs_table.parquet") spark ;;
  artists_table <- artists_table song_df ;;
  parquet (write artists_table) (output_data +:+ "artists_table.parquet") spark.

(** ** process_log_data *)

Definition log_data_schema : StructType :=
  [ mkField "artist" StringType true;
    mkField "auth" StringType true;
    mkField "firstName" StringType true;
    mkField "gender" StringType true;
    mkField "itemInSession" LongType true;
    mkField "lastName" StringType true;
    mkField "length" DoubleType true;
    mkField "level" StringType true;
    mkField "location" StringType true;
    mkField "method" StringType true;
    mkField "page" StringType true;
    mkField "registration" DoubleType true;
    mkField "sessionId" LongType true;
    mkField "song" StringType true;
    mkField "status" LongType true;
    mkField "ts" LongType true;
    mkField "userAgent" StringType true;
    mkField "userId" StringType true ].

Definition log_data_path (input_data : string) : string :=
  input_data +:+ "data/log_data/*.json".

(** [datetime.datetime.fromtimestamp(x / 1000)] returned from a udf of
    type timestamp: the instant [x] milliseconds after the epoch, for the
    years a [datetime] can hold (1 to 9999).  Three things are left
    out: the rounding of the floating point quotient, the round trip of
    the value through the local time of the worker, and the narrower
    limits of [fromtimestamp] close to the years 1 and 9999.  Nothing
    below depends on the exact instant or on the exact limits. *)
Definition fromtimestamp_millis (x : Z) : result Cell :=
  if (-62135596800000 <=? x) && (x <? 253402300800000)
  then Ok (Some (VTimestamp (x * 1000)))
  else Raise (PythonException "ValueError: year is out of range").

(** Line 143: [lambda x: datetime.datetime.fromtimestamp(x / 1000)].
    A NULL cell reaches the function as [None], and [None / 1000]
    raises. *)
Definition get_timestamp (x : Cell) : result Cell :=
  match x with
  | Some (VLong ms) => fromtimestamp_millis ms
  | Some _ =>
      Raise (PythonException "TypeError: unsupported operand type(s) for /")
  | None =>
      Raise (PythonException
               "TypeError: unsupported operand type(s) for /: 'NoneType' and 'int'")
  end.

(** What the engine does when the column function [F.to_date] is called
    on a Python value inside a udf, that is on a worker, where there is
    no session to build column expressions with: the call raises. *)
Definition to_date_on_worker (x : Cell) : result Cell :=
  Raise (PythonException
           "AttributeError: 'NoneType' object has no attribute '_jvm'").

Section LogPipeline.
(** Session time zone. *)
Variable tz : Z -> Z.
(** Outcome of [F.to_date(x)] inside the udf of line 147.  The
    statements below hold for every outcome; [to_date_on_worker] is
    the one of the engine. *)
Variable F_to_date : Cell -> result Cell.
(** Partitions in which the engine lays out the rows of a frame. *)
Variable layout : list Row -> list (list Row).

(** Line 147: [lambda x: F.to_date(x)]. *)
Definition get_datetime (x : Cell) : result Cell := F_to_date x.

(** Lines 117 and 134. *)
Definition filtered_log (spark : SparkSession) (input_data : string)
    : result DataFrame :=
  let log_data := log_data_path input_data in
  log_df <- read_json spark log_data (Some log_data_schema) ;;
  filter tz log_df (col_eq (col "page") (lit (VString "NextSong"))).

(** Line 137. *)
Definition users_table (log_df : DataFrame) : result DataFrame :=
  select log_df ["firstName"; "lastName"; "gender"; "level"; "userId"].

(** Lines 143 to 156. *)
Definition derive_time_columns (log_df : DataFrame) : result DataFrame :=
  log_df <- withColumn tz log_df "timestamp"
              (udf get_timestamp TimestampType (col "ts")) ;;
  log_df <- withColumn tz log_df "start_time"
              (udf get_datetime TimestampType (col "ts")) ;;
  log_df <- withColumn tz log_df "hour" (F_hour (col "timestamp")) ;;
  log_df <- withColumn tz log_df "day" (F_dayofweek (col "timestamp")) ;;
  log_df <- withColumn tz log_df "week" (F_weekofyear (col "timestamp")) ;;
  log_df <- withColumn tz log_df "month" (F_month (col "timestamp")) ;;
  log_df <- withColumn tz log_df "year" (F_year (col "timestamp")) ;;
  withColumn tz log_df "weekday" (F_dayofweek (col "timestamp")).

(** Line 158. *)
Definition time_table (log_df : DataFrame) : result DataFrame :=
  select log_df ["start_time"; "hour"; "day"; "week"; "month"; "year";
                 "weekday"].

(** Line 165: the song source is read again, without a schema. *)
Definition reread_song_data (spark : SparkSession) (input_data : string)
    : result DataFrame :=
  let song_data := song_data_path input_data in
  read_json spark song_data None.

(** Lines 168 to 170. *)
Definition register_views (time_table log_df song_df : DataFrame)
    (spark : SparkSession) : SparkSession :=
  let spark := createOrReplaceTempView time_table "time_table" spark in
  let spark := createOrReplaceTempView log_df "log_df_table" spark in
  createOrReplaceTempView song_df "song_df_table" spark.

(** Lines 171 to 190. *)
Definition songplays_table (spark : SparkSession) : result DataFrame :=
  songplays_table <- sql_songplays spark ;;
  withColumn_monotonically_increasing_id layout songplays_table "songplay_id".

Definition process_log_data (spark : SparkSession)
    (input_data output_data : string) : result SparkSession :=
  log_df <- filtered_log spark input_data ;;
  users_table <- users_table log_df ;;
  spark <- parquet (write users_table)
             (output_data +:+ "users_table.parquet") spark ;;
  log_df <- derive_time_columns log_df ;;
  time_table <- time_table log_df ;;
  spark <- parquet (partitionBy ["year"; "month"] (write time_table))
             (output_data +:+ "time_table.parquet") spark ;;
  song_df <- reread_song_data spark input_data ;;
  let spark := register_views time_table log_df song_df spark in
  songplays_table <- songplays_table spark ;;
  parquet (partitionBy ["year"; "month"] (write songplays_table))
    (output_data +:+ "songplays_table.parquet") spark.

(** The three frames [process_log_data] builds, without the writes. *)
Definition log_frames (spark : SparkSession) (input_data : string)
    : result (DataFrame * DataFrame * DataFrame) :=
  log_df <- filtered_log spark input_data ;;
  users <- users_table log_df ;;
  log_df <- derive_time_columns log_df ;;
  time <- time_table log_df ;;
  song_df <- reread_song_data spark input_data ;;
  songplays <- songplays_table (register_views time log_df song_df spark) ;;
  Ok (users, time, songplays).

(** ** main *)
Definition main (spark : SparkSession) : result SparkSession :=
  let input_data := "s3a://udacity-dend/" in
  let output_data := "s3a://udacity-dend/" in
  spark <- process_song_data spark input_data output_data ;;
  process_log_data spark input_data output_data.
End LogPipeline.

(** ** Sample data: the end-to-end scenario of the specification *)

Definition song_S1 : JsonRecord :=
  [ ("song_id", JStr "S1"); ("artist_id", JStr "A1");
    ("artist_name", JStr "Artist X"); ("title", JStr "T1");
    ("year", JInt 2000); ("duration", JReal "180.5") ].

Definition log_U1 : JsonRecord :=
  [ ("page", JStr "NextSong"); ("artist", JStr "Artist X");
    ("ts", JInt 946684800000); ("userId", JStr "U1");
    ("level", JStr "free"); ("sessionId", JInt 1);
    ("location", JStr "LA"); ("userAgent", JStr "UA") ].

Definition log_U1_paid : JsonRecord :=
  [ ("page", JStr "NextSong"); ("artist", JStr "Artist X");
    ("ts", JInt 946688400000); ("userId", JStr "U1");
    ("level", JStr "paid"); ("sessionId", JInt 2);
    ("location", JStr "LA"); ("userAgent", JStr "UA") ].

Definition log_home : JsonRecord :=
  [ ("page", JStr "Home"); ("ts", JInt 946684800000);
    ("userId", JStr "U2"); ("level", JStr "free") ].

Definition bucket : string := "s3a://udacity-dend/".

Definition session (songs logs : list JsonRecord) : SparkSession :=
  mkSession (<[song_data_path bucket := songs]>
               (<[log_data_path bucket := logs]> ∅)) ∅ ∅.

(** A stand-in for a udf body that does return a timestamp: the second
    of the millisecond count.  Only used to run the generic statements
    on rows. *)
Definition to_seconds (x : Cell) : result Cell :=
  match x with
  | Some (VLong ms) => Ok (Some (VTimestamp (ms / 1000 * 1000000)))
  | _ => Ok None
  end.

Definition one_partition (rs : list Row) : list (list Row) := [rs].

(** * Vocabulary of the statements, and sample runs *)


Definition stale_users : Table :=
  mkTable [] [mkField "userId" StringType true] [[Some (VString "U0")]].

Definition session_with_prior_users : SparkSession :=
  mkSession (objects (session [song_S1] [log_U1]))
            {[ bucket +:+ "users_table.parquet" := stale_users ]} ∅.



Definition next_song : Column := col_eq (col "page") (lit (VString "NextSong")).

(** Cell of the column [n] in a row of a frame with schema [s]. *)
Definition cell (s : StructType) (n : string) (r : Row) : Cell :=
  match field_index n s with
  | Some i => cell_at r i
  | None => None
  end.

Definition is_next_song (r : Row) : bool :=
  bool_decide (cell log_data_schema "page" r = Some (VString "NextSong")).

Definition users_row (r : Row) : Row :=
  map (fun n => cell log_data_schema n r)
      ["firstName"; "lastName"; "gender"; "level"; "userId"].

(** What C5 says of a users frame. *)
Definition userId_unique (users : DataFrame) : Prop :=
  forall rs i j r1 r2,
    rows users = Ok rs -> i <> j ->
    rs !! i = Some r1 -> rs !! j = Some r2 ->
    cell (schema users) "userId" r1 <> cell (schema users) "userId" r2.

Definition result_map {A B} (f : A -> B) (r : result A) : result B :=
  match r with
  | Ok a => Ok (f a)
  | Raise e => Raise e
  end.

Definition log_no_page : JsonRecord :=
  [ ("artist", JStr "Artist X"); ("ts", JInt 946684800000);
    ("userId", JStr "U3"); ("level", JStr "free") ].

Definition songs_only : gmap string (list JsonRecord) :=
  {[ song_data_path bucket := [song_S1] ]}.

(** The time row of a filtered log row. *)
Definition time_row (tz : Z -> Z) (F_to_date : Cell -> result Cell) (r : Row)
    : result Row :=
  t <- get_timestamp (cell log_data_schema "ts" r) ;;
  st <- get_datetime F_to_date (cell log_data_schema "ts" r) ;;
  Ok [st; on_timestamp (Calendar.hour tz) t;
      on_timestamp (Calendar.dayofweek tz) t;
      on_timestamp (Calendar.weekofyear tz) t;
      on_timestamp (Calendar.month tz) t;
      on_timestamp (Calendar.year tz) t;
      on_timestamp (Calendar.dayofweek tz) t].

Definition time_schema : StructType :=
  [ mkField "start_time" TimestampType true; mkField "hour" IntegerType true;
    mkField "day" IntegerType true; mkField "week" IntegerType true;
    mkField "month" IntegerType true; mkField "year" IntegerType true;
    mkField "weekday" IntegerType true ].

(** The frames of the end-to-end scenario, with [to_seconds] standing
    for the udf of start_time. *)
Definition get {A} (r : result A) (d : A) : A :=
  match r with Ok a => a | Raise _ => d end.

Definition no_frame : DataFrame := mkFrame [] (Ok []).

Definition log_frame_U1 : DataFrame :=
  Eval vm_compute in
    get (filtered_log utc (session [song_S1] [log_U1]) bucket) no_frame.

Definition derived_frame_U1 : DataFrame :=
  Eval vm_compute in
    get (derive_time_columns utc to_seconds log_frame_U1) no_frame.

Definition time_frame_U1 : DataFrame :=
  Eval vm_compute in get (time_table derived_frame_U1) no_frame.

Definition time_row_U1 : Row :=
  [Some (VTimestamp 946684800000000); Some (VInt 0); Some (VInt 7);
   Some (VInt 52); Some (VInt 1); Some (VInt 2000); Some (VInt 7)].

(** The ids given to the rows of the partitions [ps], the first of
    which has index [pid]. *)
Fixpoint partition_ids (pid : Z) (ps : list (list Row)) : list Z :=
  match ps with
  | [] => []
  | p :: ps' =>
      map (row_id pid) (seqZ 0 (Z.of_nat (length p)))
      ++ partition_ids (pid + 1) ps'
  end.

Definition songplays_columns : list string :=
  ["start_time"; "userId"; "level"; "sessionId"; "location"; "userAgent";
   "song_id"; "artist_id"; "year"; "month"].

Definition two_plays : SparkSession := session [song_S1] [log_U1; log_U1_paid].

Definition registered_two_plays : SparkSession :=
  get (log_df <- filtered_log utc two_plays bucket ;;
       log_df <- derive_time_columns utc to_seconds log_df ;;
       time <- time_table log_df ;;
       song_df <- reread_song_data two_plays bucket ;;
       Ok (register_views time log_df song_df two_plays))
      two_plays.

(** One row in the first partition, the others in the second. *)
Definition first_apart (rs : list Row) : list (list Row) :=
  [take 1 rs; drop 1 rs].

Definition joined_two_plays : DataFrame :=
  Eval vm_compute in get (sql_songplays registered_two_plays) no_frame.

Definition joined_rows_two_plays : list Row :=
  Eval vm_compute in get (rows joined_two_plays) [].

Definition songplays_two_plays : DataFrame :=
  Eval vm_compute in
    get (songplays_table first_apart registered_two_plays) no_frame.

Definition songplays_rows_two_plays : list Row :=
  Eval vm_compute in get (rows songplays_two_plays) [].



(** A NextSong record without ts. *)
Definition log_no_ts : JsonRecord :=
  [ ("page", JStr "NextSong"); ("artist", JStr "Artist X");
    ("userId", JStr "U4"); ("level", JStr "free") ].

(** The three output locations of the log pipeline. *)
Definition log_output_paths (output_data : string) : list string :=
  [ output_data +:+ "users_table.parquet";
    output_data +:+ "time_table.parquet";
    output_data +:+ "songplays_table.parquet" ].


(** The session after the run of the end-to-end scenario, with
    [to_seconds] standing for the udf of start_time. *)
Definition run_U1 : SparkSession :=
  Eval vm_compute in
    get (process_log_data utc to_seconds one_partition
           (session [song_S1] [log_U1]) bucket bucket)
        (session [] []).

(** * Properties *)

(** ** Generic facts about the engine model *)

Lemma bind_ok {A B} (r : result A) (k : A -> result B) (b : B) :
  bind r k = Ok b -> exists a, r = Ok a /\ k a = Ok b.
Proof. destruct r as [a|e]; simpl; [eauto | discriminate]. Qed.

Lemma mapM_ok_map {A B} (f : A -> B) (l : list A) :
  mapM (fun a => Ok (f a)) l = Ok (map f l).
Proof. induction l as [|a l IH]; simpl; [done | by rewrite IH]. Qed.

Lemma mapM_length {A B} (f : A -> result B) (l : list A) (bs : list B) :
  mapM f l = Ok bs -> length bs = length l.
Proof.
  revert bs; induction l as [|a l IH]; simpl; intros bs H.
  - by inversion H.
  - apply bind_ok in H as (b & _ & H). apply bind_ok in H as (bs' & Hbs & H).
    inversion H; subst; simpl. f_equal. by apply IH.
Qed.

Lemma mapM_elem {A B} (f : A -> result B) (l : list A) (bs : list B) (b : B) :
  mapM f l = Ok bs -> b ∈ bs -> exists a, a ∈ l /\ f a = Ok b.
Proof.
  revert bs; induction l as [|a l IH]; simpl; intros bs H Hb.
  - inversion H; subst. by apply elem_of_nil in Hb.
  - apply bind_ok in H as (b0 & Hb0 & H). apply bind_ok in H as (bs' & Hbs & H).
    inversion H; subst. apply elem_of_cons in Hb as [-> | Hb].
    + exists a. split; [apply elem_of_cons; by left | done].
    + destruct (IH _ Hbs Hb) as (a' & Ha' & Hf).
      exists a'. split; [apply elem_of_cons; by right | done].
Qed.

(** ** The song pipeline *)

(** The declared song schema has neither [title] nor [num_songs]. *)
Lemma song_schema_fields :
  has_field "title" song_data_schema = false
  /\ has_field "num_songs" song_data_schema = false
  /\ forallb (fun n => has_field n song_data_schema)
       ["song_id"; "artist_id"; "year"; "duration"; "artist_name";
        "artist_location"; "artist_latitude"; "artist_longitude"] = true.
Proof. by vm_compute. Qed.

Lemma songs_table_unresolved (rs : result (list Row)) :
  songs_table (mkFrame song_data_schema rs)
  = Raise (unresolved "title").
Proof. reflexivity. Qed.

(** Whatever the storage holds, the song pipeline does not complete:
    either the source is missing, or line 69 raises. *)
Lemma process_song_data_raises spark input_data output_data :
  process_song_data spark input_data output_data
  = match objects spark !! song_data_path input_data with
    | Some _ => Raise (unresolved "title")
    | None => Raise (AnalysisException
                       ("Path does not exist: " +:+ song_data_path input_data))
    end.
Proof.
  unfold process_song_data, read_json.
  by destruct (objects spark !! song_data_path input_data).
Qed.

(** C2.  The songs projection of line 69 selects [title], which the
    schema declared at lines 42 to 51 does not have: on the song record
    of the end-to-end scenario the song pipeline raises an analysis
    error and no songs table is written, so no row carries the record's
    song_id and title. *)
Theorem song_pipeline_title_unresolved :
  process_song_data (session [song_S1] []) bucket bucket
  = Raise (unresolved "title")
  /\ forall spark input_data output_data,
       is_ok (process_song_data spark input_data output_data) = false.
Proof.
  split; [by vm_compute |].
  intros spark i o. rewrite process_song_data_raises.
  by destruct (objects spark !! song_data_path i).
Qed.

(** C3.  The artists projection of line 75 selects [num_songs], which
    the declared schema does not have: on every frame read with the
    declared schema the projection raises an analysis error; the field
    does not resolve to NULL. *)
Theorem artists_projection_num_songs_unresolved :
  forall rs : result (list Row),
    artists_table (mkFrame song_data_schema rs)
    = Raise (unresolved "num_songs").
Proof. reflexivity. Qed.

(** ** The reads *)

Lemma read_json_schema spark path sch df :
  read_json spark path sch = Ok df ->
  exists recs, objects spark !! path = Some recs
               /\ schema df = default (infer_schema recs) sch.
Proof.
  unfold read_json. destruct (objects spark !! path) as [recs|]; [|done].
  intros [= <-]. by exists recs.
Qed.

(** C7.  The second read of the song source (line 165) passes no
    schema.  On the song record of the end-to-end scenario the frame it
    returns has the inferred schema, with [title] and a long [year],
    which is not the schema declared for the first read (line 54). *)
Theorem song_reread_schema_is_inferred :
  exists df,
    reread_song_data (session [song_S1] [log_U1]) bucket = Ok df
    /\ schema df = infer_schema [song_S1]
    /\ schema df <> song_data_schema
    /\ has_field "title" (schema df) = true
    /\ result_map schema
         (read_json (session [song_S1] [log_U1]) (song_data_path bucket)
            (Some song_data_schema))
       = Ok song_data_schema.
Proof.
  eexists. split; [by vm_compute |].
  split; [by vm_compute |]. split; [by vm_compute |]. split; by vm_compute.
Qed.

(** ** The writes *)


(** A writer on which no mode was set raises on a location that holds
    content, before any row is computed, and the session is left as it
    was. *)
Lemma parquet_default_mode_exists df cols path spark old idx :
  mapM (resolve (schema df)) cols = Ok idx ->
  tables spark !! path = Some old ->
  parquet (partitionBy cols (write df)) path spark
  = Raise (already_exists path).
Proof.
  intros Hidx Hold. unfold parquet; simpl. by rewrite Hidx, Hold.
Qed.


(** ** The filter of line 134 *)

Lemma keeps_next_song tz (r : Row) :
  keeps tz log_data_schema next_song r = Ok (is_next_song r).
Proof.
  unfold keeps, is_next_song, cell; simpl.
  destruct (cell_at r 10) as [v|] eqn:E; unfold cell_at in E; rewrite E; simpl.
  - f_equal. destruct (decide (v = VString "NextSong")) as [-> | Hne].
    + done.
    + rewrite (bool_decide_eq_false_2 (v = _)) by done.
      rewrite !bool_decide_eq_false_2; [done | congruence | congruence].
  - done.
Qed.

Lemma filter_rows_next_song tz (rs : list Row) :
  filter_rows tz log_data_schema next_song rs = Ok (List.filter is_next_song rs).
Proof.
  induction rs as [|r rs IH]; [done |].
  cbn [filter_rows List.filter]. rewrite keeps_next_song, IH.
  by destruct (is_next_song r).
Qed.

(** The frame after lines 117 and 134: the declared schema, and the rows
    of the records whose [page] cell is the string NextSong. *)
Lemma filtered_log_spec tz spark input_data :
  filtered_log tz spark input_data
  = match objects spark !! log_data_path input_data with
    | Some recs =>
        Ok (mkFrame log_data_schema
              (Ok (List.filter is_next_song
                     (map (from_json log_data_schema) recs))))
    | None => Raise (AnalysisException
                       ("Path does not exist: " +:+ log_data_path input_data))
    end.
Proof.
  unfold filtered_log, read_json.
  destruct (objects spark !! log_data_path input_data) as [recs|]; [|done].
  simpl. unfold filter; simpl. by rewrite filter_rows_next_song.
Qed.

Lemma page_cell_from_json (r : JsonRecord) :
  cell log_data_schema "page" (from_json log_data_schema r)
  = coerce StringType (json_get "page" r).
Proof. reflexivity. Qed.

(** ** The users table *)

Lemma users_table_rows (rs : list Row) :
  exists users,
    users_table (mkFrame log_data_schema (Ok rs)) = Ok users
    /\ rows users = Ok (map users_row rs)
    /\ map f_name (schema users)
       = ["firstName"; "lastName"; "gender"; "level"; "userId"].
Proof. eexists. split; [reflexivity |]. by split. Qed.

(** Two NextSong records of user U1, one on the free and one on the
    paid level, give two different users rows with the same userId. *)
Lemma users_userId_repeated :
  exists log_df users,
    filtered_log utc (session [song_S1] [log_U1; log_U1_paid]) bucket = Ok log_df
    /\ users_table log_df = Ok users
    /\ rows users
       = Ok [[None; None; None; Some (VString "free"); Some (VString "U1")];
             [None; None; None; Some (VString "paid"); Some (VString "U1")]]
    /\ ~ userId_unique users.
Proof.
  eexists; eexists. split; [by vm_compute |]. split; [by vm_compute |].
  split; [by vm_compute |].
  intros H.
  by apply (H _ 0%nat 1%nat _ _ eq_refl (ltac:(done)) eq_refl eq_refl).
Qed.

(** C5, as amended.  The users table is the projection (firstName,
    lastName, gender, level, userId) of the NextSong rows, one users row
    for each such log record and in the same order, with no removal of
    duplicates: a userId occurs once for every NextSong record of that
    user. *)
Theorem users_one_row_per_next_song_record :
  forall tz spark input_data recs,
    objects spark !! log_data_path input_data = Some recs ->
    exists log_df users,
      filtered_log tz spark input_data = Ok log_df
      /\ users_table log_df = Ok users
      /\ rows users
         = Ok (map users_row
                 (List.filter is_next_song
                    (map (from_json log_data_schema) recs)))
      /\ forall u,
           length (List.filter
                     (fun r => bool_decide (cell log_data_schema "userId" r = u))
                     (List.filter is_next_song
                        (map (from_json log_data_schema) recs)))
           = length (List.filter
                       (fun r => bool_decide (cell_at r 4 = u))
                       (map users_row
                          (List.filter is_next_song
                             (map (from_json log_data_schema) recs)))).
Proof.
  intros tz spark input recs Hrecs.
  rewrite filtered_log_spec, Hrecs.
  destruct (users_table_rows
              (List.filter is_next_song (map (from_json log_data_schema) recs)))
    as (users & Hu & Hrows & _).
  exists (mkFrame log_data_schema
            (Ok (List.filter is_next_song (map (from_json log_data_schema) recs)))),
         users.
  split; [done |]. split; [done |]. split; [done |].
  intros u. clear Hu Hrows.
  induction (List.filter is_next_song (map (from_json log_data_schema) recs))
    as [|r rs IH]; simpl; [done |].
  change (cell_at (users_row r) 4) with (cell log_data_schema "userId" r).
  destruct (bool_decide _); simpl; by rewrite IH.
Qed.

Lemma users_one_row_per_next_song_record_witness :
  exists log_df users,
    filtered_log utc (session [song_S1] [log_U1; log_home; log_U1_paid]) bucket
    = Ok log_df
    /\ users_table log_df = Ok users
    /\ rows users
       = Ok [[None; None; None; Some (VString "free"); Some (VString "U1")];
             [None; None; None; Some (VString "paid"); Some (VString "U1")]].
Proof.
  destruct (users_one_row_per_next_song_record utc
              (session [song_S1] [log_U1; log_home; log_U1_paid]) bucket
              [log_U1; log_home; log_U1_paid] eq_refl)
    as (log_df & users & H1 & H2 & H3 & _).
  exists log_df, users. split; [exact H1 |]. split; [exact H2 |]. exact H3.
Defined.

(** ** The start_time column *)

(** C1.  The udf of line 147 calls [F.to_date] on the raw millisecond
    count, on the worker, where the call raises.  On the log record of
    the end-to-end scenario the frames are built (they are lazy), the
    users table is written, and the write of the time table (line 161)
    raises: no start_time is produced, neither for the time table nor
    for the join, while the sibling udf of line 143 does turn the same
    [ts] into the timestamp. *)
Theorem start_time_udf_raises :
  forall tz layout,
    process_log_data tz to_date_on_worker layout
      (session [song_S1] [log_U1]) bucket bucket
    = Raise (PythonException
               "AttributeError: 'NoneType' object has no attribute '_jvm'")
    /\ get_timestamp (Some (VLong 946684800000))
       = Ok (Some (VTimestamp 946684800000000))
    /\ get_datetime to_date_on_worker (Some (VLong 946684800000))
       = Raise (PythonException
                  "AttributeError: 'NoneType' object has no attribute '_jvm'").
Proof. intros tz layout. split; [by vm_compute | by split]. Qed.

(** ** Records that are not NextSong *)

Lemma append_inj_r (s a b : string) : s +:+ a = s +:+ b -> a = b.
Proof. induction s as [|c s IH]; simpl; [done |]. intros [= H]. by apply IH. Qed.

Lemma log_path_not_song_path input_data :
  log_data_path input_data <> song_data_path input_data.
Proof. intros H. by apply append_inj_r in H. Qed.

(** A write reads the tables of the session only, and changes nothing
    else. *)
Lemma parquet_objects w path o o' t v :
  parquet w path (mkSession o' t v)
  = match parquet w path (mkSession o t v) with
    | Ok s => Ok (mkSession o' (tables s) (views s))
    | Raise e => Raise e
    end.
Proof.
  unfold parquet; simpl. destruct (mapM _ _); simpl; [|done].
  destruct (t !! path), (w_mode w); simpl; try done;
    by destruct (rows (w_df w)).
Qed.

Lemma parquet_keeps w path s s' :
  parquet w path s = Ok s' -> objects s' = objects s /\ views s' = views s.
Proof.
  unfold parquet. destruct (mapM _ _); simpl; [|done].
  destruct (tables s !! path), (w_mode w); simpl;
    try destruct (rows (w_df w)); simpl; intros [= <-]; done.
Qed.

Lemma sql_songplays_views s s' :
  views s = views s' -> sql_songplays s = sql_songplays s'.
Proof. intros H. unfold sql_songplays, view. by rewrite H. Qed.

Section Congruence.
Variable tz : Z -> Z.
Variable F_to_date : Cell -> result Cell.
Variable layout : list Row -> list (list Row).

(** Two sessions that give the same filtered log and hold the same
    song source, tables and views give the same frames and the same
    outcome: the same exception, or the same tables written. *)
Lemma log_pipeline_congruence o o' t v input_data output_data :
  filtered_log tz (mkSession o t v) input_data
  = filtered_log tz (mkSession o' t v) input_data ->
  o !! song_data_path input_data = o' !! song_data_path input_data ->
  log_frames tz F_to_date layout (mkSession o t v) input_data
  = log_frames tz F_to_date layout (mkSession o' t v) input_data
  /\ result_map tables
       (process_log_data tz F_to_date layout (mkSession o t v)
          input_data output_data)
     = result_map tables
         (process_log_data tz F_to_date layout (mkSession o' t v)
            input_data output_data).
Proof.
  intros Hlog Hsong. split.
  - unfold log_frames. rewrite Hlog.
    destruct (filtered_log tz (mkSession o' t v) input_data) as [log_df|];
      simpl; [|done].
    destruct (users_table log_df) as [users|]; simpl; [|done].
    destruct (derive_time_columns tz F_to_date log_df) as [d|]; simpl; [|done].
    destruct (time_table d) as [time|]; simpl; [|done].
    unfold reread_song_data, read_json; simpl. rewrite Hsong.
    destruct (o' !! song_data_path input_data) as [recs|]; simpl; [|done].
    unfold songplays_table.
    rewrite (sql_songplays_views _
               (register_views time d
                  (mkFrame (infer_schema recs)
                     (Ok (map (from_json (infer_schema recs)) recs)))
                  (mkSession o' t v))) by done.
    by destruct (sql_songplays _).
  - unfold process_log_data. rewrite Hlog.
    destruct (filtered_log tz (mkSession o' t v) input_data) as [log_df|];
      simpl; [|done].
    destruct (users_table log_df) as [users|]; simpl; [|done].
    rewrite (parquet_objects _ _ o o').
    destruct (parquet _ _ (mkSession o t v)) as [s1|] eqn:E1; simpl; [|done].
    apply parquet_keeps in E1 as [Ho1 Hv1]. destruct s1 as [o1 t1 v1].
    simpl in *. subst o1 v1.
    destruct (derive_time_columns tz F_to_date log_df) as [d|]; simpl; [|done].
    destruct (time_table d) as [time|]; simpl; [|done].
    rewrite (parquet_objects _ _ o o').
    destruct (parquet _ _ (mkSession o t1 v)) as [s2|] eqn:E2; simpl; [|done].
    apply parquet_keeps in E2 as [Ho2 Hv2]. destruct s2 as [o2 t2 v2].
    simpl in *. subst o2 v2.
    unfold reread_song_data, read_json; simpl. rewrite Hsong.
    destruct (o' !! song_data_path input_data) as [recs|]; simpl; [|done].
    unfold songplays_table.
    rewrite (sql_songplays_views _
               (register_views time d
                  (mkFrame (infer_schema recs)
                     (Ok (map (from_json (infer_schema recs)) recs)))
                  (mkSession o' t2 v))) by done.
    destruct (sql_songplays _) as [sp|]; simpl; [|done].
    unfold register_views, createOrReplaceTempView; simpl.
    rewrite (parquet_objects _ _ o o').
    by destruct (parquet _ _ (mkSession o _ _)).
Qed.

(** Dropping from the log source a record whose row is not kept by the
    filter changes neither the frames nor the outcome. *)
Lemma dropped_record_contributes_nothing objs tbls vws input_data output_data
    (l1 l2 : list JsonRecord) (r : JsonRecord) :
  is_next_song (from_json log_data_schema r) = false ->
  let with_r := mkSession (<[log_data_path input_data := l1 ++ r :: l2]> objs)
                  tbls vws in
  let without := mkSession (<[log_data_path input_data := l1 ++ l2]> objs)
                   tbls vws in
  filtered_log tz with_r input_data = filtered_log tz without input_data
  /\ log_frames tz F_to_date layout with_r input_data
     = log_frames tz F_to_date layout without input_data
  /\ result_map tables
       (process_log_data tz F_to_date layout with_r input_data output_data)
     = result_map tables
         (process_log_data tz F_to_date layout without input_data output_data).
Proof.
  intros Hr with_r without.
  assert (Hlog : filtered_log tz with_r input_data
                 = filtered_log tz without input_data).
  { rewrite !filtered_log_spec. unfold with_r, without; simpl.
    rewrite !lookup_insert_eq. do 3 f_equal.
    rewrite !map_app, !List.filter_app.
    cbn [map List.filter]. by rewrite Hr. }
  assert (Hsong : (<[log_data_path input_data := l1 ++ r :: l2]> objs)
                    !! song_data_path input_data
                  = (<[log_data_path input_data := l1 ++ l2]> objs)
                      !! song_data_path input_data).
  { rewrite !lookup_insert_ne; [done | |]; apply log_path_not_song_path. }
  destruct (log_pipeline_congruence _ _ tbls vws input_data output_data
              Hlog Hsong) as [Hf Hp].
  by split.
Qed.
End Congruence.

(** C6.  A log record whose [page], as read under the declared schema,
    is not the string NextSong contributes nothing: with or without the
    record in the log source, the filtered log, the users, time and
    songplays frames and the outcome of [process_log_data] (the tables
    written, or the exception) are the same. *)
Theorem other_pages_contribute_nothing :
  forall tz F_to_date layout objs tbls vws input_data output_data
         (l1 l2 : list JsonRecord) (r : JsonRecord),
    cell log_data_schema "page" (from_json log_data_schema r)
    <> Some (VString "NextSong") ->
    let with_r := mkSession (<[log_data_path input_data := l1 ++ r :: l2]> objs)
                    tbls vws in
    let without := mkSession (<[log_data_path input_data := l1 ++ l2]> objs)
                     tbls vws in
    filtered_log tz with_r input_data = filtered_log tz without input_data
    /\ log_frames tz F_to_date layout with_r input_data
       = log_frames tz F_to_date layout without input_data
    /\ result_map tables
         (process_log_data tz F_to_date layout with_r input_data output_data)
       = result_map tables
           (process_log_data tz F_to_date layout without input_data output_data).
Proof.
  intros tz F_to_date layout objs tbls vws input output l1 l2 r Hr.
  apply dropped_record_contributes_nothing.
  unfold is_next_song. by apply bool_decide_eq_false_2.
Qed.

Lemma other_pages_contribute_nothing_witness :
  cell log_data_schema "page" (from_json log_data_schema log_home)
  <> Some (VString "NextSong")
  /\ log_frames utc to_seconds one_partition
       (mkSession (<[log_data_path bucket := [log_U1] ++ log_home :: [log_U1_paid]]>
                     songs_only) ∅ ∅) bucket
     = log_frames utc to_seconds one_partition
         (mkSession (<[log_data_path bucket := [log_U1] ++ [log_U1_paid]]>
                       songs_only) ∅ ∅) bucket.
Proof.
  assert (H : cell log_data_schema "page" (from_json log_data_schema log_home)
              <> Some (VString "NextSong")) by (vm_compute; discriminate).
  split; [exact H |].
  exact (proj1 (proj2 (other_pages_contribute_nothing utc to_seconds one_partition
                         songs_only ∅ ∅ bucket bucket [log_U1] [log_U1_paid]
                         log_home H))).
Defined.

(** Under the string type of [page], the cell is NULL exactly when the
    field is absent from the record or is the JSON null. *)
Lemma page_cell_null (r : JsonRecord) :
  cell log_data_schema "page" (from_json log_data_schema r) = None
  <-> json_get "page" r = None \/ json_get "page" r = Some JNull.
Proof.
  rewrite page_cell_from_json. unfold coerce.
  destruct (json_get "page" r) as [[]|]; split; intros H;
    try done; try (by left); try (by right); by destruct H.
Qed.

(** C10.  On a log record whose [page] is absent or null the filter
    condition [page == 'NextSong'] is NULL, not true, so the row is not
    kept; with or without the record, the frames and the outcome of
    [process_log_data] are the same. *)
Theorem null_page_contributes_nothing :
  forall tz F_to_date layout objs tbls vws input_data output_data
         (l1 l2 : list JsonRecord) (r : JsonRecord),
    json_get "page" r = None \/ json_get "page" r = Some JNull ->
    let with_r := mkSession (<[log_data_path input_data := l1 ++ r :: l2]> objs)
                    tbls vws in
    let without := mkSession (<[log_data_path input_data := l1 ++ l2]> objs)
                     tbls vws in
    eval tz log_data_schema next_song (from_json log_data_schema r) = Ok None
    /\ keeps tz log_data_schema next_song (from_json log_data_schema r) = Ok false
    /\ filtered_log tz with_r input_data = filtered_log tz without input_data
    /\ log_frames tz F_to_date layout with_r input_data
       = log_frames tz F_to_date layout without input_data
    /\ result_map tables
         (process_log_data tz F_to_date layout with_r input_data output_data)
       = result_map tables
           (process_log_data tz F_to_date layout without input_data output_data).
Proof.
  intros tz F_to_date layout objs tbls vws input output l1 l2 r Hr.
  apply page_cell_null in Hr.
  assert (Hn : is_next_song (from_json log_data_schema r) = false).
  { unfold is_next_song. rewrite Hr. done. }
  split.
  { change (eval tz log_data_schema next_song (from_json log_data_schema r))
      with (Ok (sql_eq (cell log_data_schema "page" (from_json log_data_schema r))
                       (Some (VString "NextSong")))).
    by rewrite Hr. }
  split; [by rewrite keeps_next_song, Hn |].
  by apply dropped_record_contributes_nothing.
Qed.

Lemma null_page_contributes_nothing_witness :
  (json_get "page" log_no_page = None \/ json_get "page" log_no_page = Some JNull)
  /\ eval utc log_data_schema next_song (from_json log_data_schema log_no_page)
     = Ok None
  /\ log_frames utc to_seconds one_partition
       (mkSession (<[log_data_path bucket := [log_U1] ++ log_no_page :: []]>
                     songs_only) ∅ ∅) bucket
     = log_frames utc to_seconds one_partition
         (mkSession (<[log_data_path bucket := [log_U1] ++ []]>
                       songs_only) ∅ ∅) bucket.
Proof.
  assert (H : json_get "page" log_no_page = None
              \/ json_get "page" log_no_page = Some JNull) by (left; reflexivity).
  split; [exact H |].
  destruct (null_page_contributes_nothing utc to_seconds one_partition
              songs_only ∅ ∅ bucket bucket [log_U1] [] log_no_page H)
    as (He & _ & _ & Hf & _).
  split; [exact He | exact Hf].
Defined.

(** ** Calendar ranges *)

Lemma hour_range tz t : 0 <= Calendar.hour tz t <= 23.
Proof. unfold Calendar.hour. Z.div_mod_to_equations. lia. Qed.

Lemma civil_from_days_range days :
  let '(y, m, d) := Calendar.civil_from_days days in
  1 <= m <= 12 /\ 1 <= d <= 31.
Proof.
  unfold Calendar.civil_from_days. cbv zeta.
  Z.div_mod_to_equations. destruct (_ <? 10) eqn:E; lia.
Qed.

Lemma month_range tz t : 1 <= Calendar.month tz t <= 12.
Proof.
  unfold Calendar.month.
  pose proof (civil_from_days_range (Calendar.local_day tz t)) as H.
  destruct (Calendar.civil_from_days _) as [[y m] d]. simpl. lia.
Qed.

Lemma weeks_in_year_range y : 52 <= Calendar.weeks_in_year y <= 53.
Proof. unfold Calendar.weeks_in_year. destruct (_ || _); lia. Qed.

Lemma first_day_of_year_range m l :
  1 <= m <= 12 -> 1 <= Calendar.first_day_of_year m l <= 336.
Proof.
  intros H.
  assert (m = 1 \/ m = 2 \/ m = 3 \/ m = 4 \/ m = 5 \/ m = 6 \/ m = 7
          \/ m = 8 \/ m = 9 \/ m = 10 \/ m = 11 \/ m = 12) as Hm by lia.
  destruct l; repeat (destruct Hm as [-> | Hm]); try subst m; simpl; lia.
Qed.

Lemma week_of_year_range days : 1 <= Calendar.week_of_year days <= 53.
Proof.
  unfold Calendar.week_of_year.
  pose proof (civil_from_days_range days) as H.
  destruct (Calendar.civil_from_days days) as [[y m] d]. destruct H as [Hm Hd].
  unfold Calendar.day_of_year, Calendar.iso_weekday.
  pose proof (first_day_of_year_range m (Calendar.is_leap y) Hm) as Hf.
  generalize dependent (Calendar.first_day_of_year m (Calendar.is_leap y)).
  intros f Hf. cbv zeta.
  pose proof (weeks_in_year_range (y - 1)).
  set (doy0 := f + d - 1 - 1).
  set (thu := doy0 + (3 - (days + 3) mod 7)).
  set (mon := thu - Z.quot thu 7 * 7 - 3).
  assert (Hmon : -9 <= mon <= 3).
  { unfold mon. Z.to_euclidean_division_equations. lia. }
  assert (Hdoy : 0 <= doy0 <= 365) by (unfold doy0; lia).
  clearbody mon doy0.
  set (mon' := if mon <? -3 then mon + 7 else mon).
  assert (Hmon' : -3 <= mon' <= 3)
    by (unfold mon'; destruct (mon <? -3) eqn:E; lia).
  clearbody mon'.
  destruct (doy0 <? mon') eqn:E2; [lia |].
  destruct (_ && _); [lia |].
  Z.to_euclidean_division_equations. lia.
Qed.

Lemma weekofyear_range tz t : 1 <= Calendar.weekofyear tz t <= 53.
Proof. apply week_of_year_range. Qed.

(** ** The time table *)

Lemma withColumn_fresh tz df n c t :
  field_index n (schema df) = None ->
  type_of (schema df) c = Ok t ->
  withColumn tz df n c
  = Ok (mkFrame (schema df ++ [mkField n t true])
          (rs <- rows df ;;
           mapM (fun r => v <- eval tz (schema df) c r ;; Ok (r ++ [v])) rs)).
Proof.
  intros Hn Ht. unfold withColumn, set_field, set_cell. rewrite Ht; simpl.
  by rewrite Hn.
Qed.

Lemma get_timestamp_ok c t :
  get_timestamp c = Ok t -> exists micros, t = Some (VTimestamp micros).
Proof.
  unfold get_timestamp, fromtimestamp_millis.
  destruct c as [[]|]; try done.
  destruct (_ && _); [|done]. intros [= <-]. eauto.
Qed.

Lemma from_json_length s r : length (from_json s r) = length s.
Proof. unfold from_json. by rewrite length_map. Qed.

Section TimeTable.
Variable tz : Z -> Z.
Variable F_to_date : Cell -> result Cell.

(** Every row of the time table is the time row of a row of the log
    frame. *)
Lemma time_table_row_inv rs d time out b :
  Forall (fun r => length r = 18%nat) rs ->
  derive_time_columns tz F_to_date (mkFrame log_data_schema (Ok rs)) = Ok d ->
  time_table d = Ok time ->
  rows time = Ok out ->
  b ∈ out ->
  schema time = time_schema
  /\ exists r, r ∈ rs /\ time_row tz F_to_date r = Ok b.
Proof.
  intros Hlen Hd Ht Hout Hb.
  unfold derive_time_columns in Hd.
  do 7 (erewrite withColumn_fresh in Hd by reflexivity; cbn [bind] in Hd).
  erewrite withColumn_fresh in Hd by reflexivity.
  injection Hd as <-.
  unfold time_table, select in Ht. cbn [schema rows] in Ht.
  change (mapM (resolve _) _)
    with (Ok [19; 20; 21; 22; 23; 24; 25]%nat : result (list nat)) in Ht.
  cbn [bind] in Ht. injection Ht as <-.
  split; [reflexivity |].
  cbn [rows] in Hout.
  apply bind_ok in Hout as (x8 & H8 & Hout). injection Hout as <-.
  apply list_elem_of_fmap in Hb as (b8 & -> & Hb8).
  apply bind_ok in H8 as (x7 & H7 & H8).
  destruct (mapM_elem _ _ _ _ H8 Hb8) as (b7 & Hb7 & E8).
  apply bind_ok in H7 as (x6 & H6 & H7).
  destruct (mapM_elem _ _ _ _ H7 Hb7) as (b6 & Hb6 & E7).
  apply bind_ok in H6 as (x5 & H5 & H6).
  destruct (mapM_elem _ _ _ _ H6 Hb6) as (b5 & Hb5 & E6).
  apply bind_ok in H5 as (x4 & H4 & H5).
  destruct (mapM_elem _ _ _ _ H5 Hb5) as (b4 & Hb4 & E5).
  apply bind_ok in H4 as (x3 & H3 & H4).
  destruct (mapM_elem _ _ _ _ H4 Hb4) as (b3 & Hb3 & E4).
  apply bind_ok in H3 as (x2 & H2 & H3).
  destruct (mapM_elem _ _ _ _ H3 Hb3) as (b2 & Hb2 & E3).
  apply bind_ok in H2 as (x1 & H1 & H2).
  destruct (mapM_elem _ _ _ _ H2 Hb2) as (b1 & Hb1 & E2).
  cbn [bind] in H1.
  destruct (mapM_elem _ _ _ _ H1 Hb1) as (r & Hr & E1).
  exists r. split; [done |].
  rewrite Forall_forall in Hlen. specialize (Hlen r Hr).
  do 18 (destruct r as [|? r]; [discriminate |]). destruct r; [|discriminate].
  clear -E1 E2 E3 E4 E5 E6 E7 E8.
  unfold time_row.
  change (cell log_data_schema "ts" _) with c14 in *.
  cbn -[get_timestamp get_datetime on_timestamp] in E1.
  destruct (get_timestamp c14) as [t|]; [|done].
  cbn [bind] in *. injection E1 as <-.
  cbn -[get_timestamp get_datetime on_timestamp] in E2.
  destruct (get_datetime F_to_date c14) as [st|]; [|done].
  cbn [bind] in *. injection E2 as <-.
  cbn -[on_timestamp] in E3. injection E3 as <-.
  cbn -[on_timestamp] in E4. injection E4 as <-.
  cbn -[on_timestamp] in E5. injection E5 as <-.
  cbn -[on_timestamp] in E6. injection E6 as <-.
  cbn -[on_timestamp] in E7. injection E7 as <-.
  cbn -[on_timestamp] in E8. injection E8 as <-.
  reflexivity.
Qed.
End TimeTable.

(** The start_time column of the time table is, row by row, the
    start_time column of the frame registered as [log_df_table]: line
    148 derives it once and line 158 copies it. *)
Lemma start_time_same_column tz F_to_date rs d time :
  derive_time_columns tz F_to_date (mkFrame log_data_schema rs) = Ok d ->
  time_table d = Ok time ->
  rows time
  = (drs <- rows d ;;
     Ok (map (fun r => map (cell_at r) [19; 20; 21; 22; 23; 24; 25]%nat) drs))
  /\ forall r,
       cell (schema time) "start_time"
         (map (cell_at r) [19; 20; 21; 22; 23; 24; 25]%nat)
       = cell (schema d) "start_time" r.
Proof.
  intros Hd Ht. unfold derive_time_columns in Hd.
  do 7 (erewrite withColumn_fresh in Hd by reflexivity; cbn [bind] in Hd).
  erewrite withColumn_fresh in Hd by reflexivity.
  injection Hd as <-.
  unfold time_table, select in Ht. cbn [schema rows] in Ht.
  change (mapM (resolve _) _)
    with (Ok [19; 20; 21; 22; 23; 24; 25]%nat : result (list nat)) in Ht.
  cbn [bind] in Ht. injection Ht as <-.
  split; reflexivity.
Qed.

(** C9.  In every row of the time table the hour is between 0 and 23,
    the month between 1 and 12 and the week between 1 and 53, whatever
    the time zone and whatever the udf of start_time returns. *)
Theorem time_fields_in_range :
  forall tz F_to_date spark input_data log_df derived time rs row,
    filtered_log tz spark input_data = Ok log_df ->
    derive_time_columns tz F_to_date log_df = Ok derived ->
    time_table derived = Ok time ->
    rows time = Ok rs ->
    row ∈ rs ->
    exists h w m,
      cell (schema time) "hour" row = Some (VInt h) /\ 0 <= h <= 23
      /\ cell (schema time) "week" row = Some (VInt w) /\ 1 <= w <= 53
      /\ cell (schema time) "month" row = Some (VInt m) /\ 1 <= m <= 12.
Proof.
  intros tz F spark input log_df d time rs row Hlog Hd Ht Hrs Hrow.
  rewrite filtered_log_spec in Hlog.
  destruct (objects spark !! log_data_path input) as [recs|]; [|done].
  injection Hlog as <-.
  destruct (time_table_row_inv tz F
              (List.filter is_next_song (map (from_json log_data_schema) recs))
              d time rs row) as (Hs & r & _ & Hr);
    [| exact Hd | exact Ht | exact Hrs | exact Hrow |].
  { apply Forall_forall. intros r Hr. apply list_elem_of_In in Hr.
    apply List.filter_In in Hr as [Hr _]. apply List.in_map_iff in Hr as (j & <- & _).
    apply from_json_length. }
  rewrite Hs. unfold time_row in Hr.
  destruct (get_timestamp _) as [t|] eqn:Et; [|done].
  apply get_timestamp_ok in Et as (micros & ->).
  destruct (get_datetime F _) as [st|]; [|done].
  injection Hr as <-.
  exists (Calendar.hour tz micros), (Calendar.weekofyear tz micros),
         (Calendar.month tz micros).
  split; [reflexivity |]. split; [apply hour_range |].
  split; [reflexivity |]. split; [apply weekofyear_range |].
  split; [reflexivity | apply month_range].
Qed.

Lemma time_fields_in_range_witness :
  exists h w m,
    cell time_schema "hour" time_row_U1 = Some (VInt h) /\ 0 <= h <= 23
    /\ cell time_schema "week" time_row_U1 = Some (VInt w) /\ 1 <= w <= 53
    /\ cell time_schema "month" time_row_U1 = Some (VInt m) /\ 1 <= m <= 12.
Proof.
  assert (H1 : filtered_log utc (session [song_S1] [log_U1]) bucket
               = Ok log_frame_U1) by (vm_compute; reflexivity).
  assert (H2 : derive_time_columns utc to_seconds log_frame_U1
               = Ok derived_frame_U1) by (vm_compute; reflexivity).
  assert (H3 : time_table derived_frame_U1 = Ok time_frame_U1)
    by (vm_compute; reflexivity).
  assert (H4 : rows time_frame_U1 = Ok [time_row_U1])
    by (vm_compute; reflexivity).
  exact (time_fields_in_range utc to_seconds (session [song_S1] [log_U1]) bucket
           log_frame_U1 derived_frame_U1 time_frame_U1 [time_row_U1] time_row_U1
           H1 H2 H3 H4 (list_elem_of_here _ _)).
Defined.

(** ** The songplay ids *)

Lemma row_id_inj pid i pid' i' :
  0 <= pid < 2 ^ 31 -> 0 <= i < 2 ^ 33 ->
  0 <= pid' < 2 ^ 31 -> 0 <= i' < 2 ^ 33 ->
  row_id pid i = row_id pid' i' -> pid = pid' /\ i = i'.
Proof.
  unfold row_id, wrap64. rewrite !Z.shiftl_mul_pow2 by lia.
  change (2 ^ 31) with 2147483648. change (2 ^ 33) with 8589934592.
  change (2 ^ 63) with 9223372036854775808.
  change (2 ^ 64) with 18446744073709551616.
  intros. Z.div_mod_to_equations. lia.
Qed.

Lemma number_rows_ids s n pid i p k :
  field_index n s = None ->
  Forall (fun r => length r = k) p ->
  map (fun r => cell_at r k) (number_rows s n pid i p)
  = map (fun j => Some (VLong (row_id pid j))) (seqZ i (Z.of_nat (length p))).
Proof.
  intros Hn. revert i. induction p as [|r p IH]; intros i Hlen; [done |].
  apply Forall_cons in Hlen as [Hr Hp].
  cbn [number_rows length]. rewrite Nat2Z.inj_succ, seqZ_cons by lia.
  cbn [map]. f_equal.
  - unfold set_cell, cell_at. rewrite Hn. cbv beta. subst k.
    by rewrite (list_lookup_middle r [] _ (length r) eq_refl).
  - rewrite IH by done. by rewrite Z.pred_succ.
Qed.

Lemma number_partitions_ids s n pid ps k :
  field_index n s = None ->
  Forall (Forall (fun r => length r = k)) ps ->
  map (fun r => cell_at r k) (number_partitions s n pid ps)
  = map (fun j => Some (VLong j)) (partition_ids pid ps).
Proof.
  intros Hn. revert pid. induction ps as [|p ps IH]; intros pid Hlen; [done |].
  apply Forall_cons in Hlen as [Hp Hps].
  cbn [number_partitions partition_ids]. rewrite !map_app, map_map.
  by rewrite (number_rows_ids s n pid 0 p k), IH.
Qed.

Lemma elem_of_partition_ids x pid ps :
  Forall (fun p => Z.of_nat (length p) <= 2 ^ 33) ps ->
  x ∈ partition_ids pid ps ->
  exists pid' j, x = row_id pid' j
                 /\ pid <= pid' < pid + Z.of_nat (length ps)
                 /\ 0 <= j < 2 ^ 33.
Proof.
  revert pid. induction ps as [|p ps IH]; intros pid Hlen Hx.
  - by apply elem_of_nil in Hx.
  - apply Forall_cons in Hlen as [Hp Hps]. cbn [partition_ids] in Hx.
    apply elem_of_app in Hx as [Hx | Hx].
    + apply list_elem_of_fmap in Hx as (j & -> & Hj).
      apply elem_of_seqZ in Hj. exists pid, j. cbn [length]. lia.
    + destruct (IH _ Hps Hx) as (pid' & j & -> & Hpid & Hj).
      exists pid', j. cbn [length]. lia.
Qed.

Lemma partition_ids_NoDup pid ps :
  0 <= pid -> pid + Z.of_nat (length ps) <= 2 ^ 31 ->
  Forall (fun p => Z.of_nat (length p) <= 2 ^ 33) ps ->
  NoDup (partition_ids pid ps).
Proof.
  revert pid. induction ps as [|p ps IH]; intros pid H0 Hn Hlen.
  - apply NoDup_nil_2.
  - apply Forall_cons in Hlen as [Hp Hps]. cbn [partition_ids length] in *.
    apply NoDup_app. split; [| split].
    + apply NoDup_fmap_2_strong; [| apply NoDup_seqZ].
      intros i j Hi Hj Hij. apply elem_of_seqZ in Hi, Hj.
      apply row_id_inj in Hij; lia.
    + intros x Hx Hx'.
      apply list_elem_of_fmap in Hx as (j & -> & Hj). apply elem_of_seqZ in Hj.
      destruct (elem_of_partition_ids _ _ _ Hps Hx') as (pid' & j' & E & Hpid & Hj').
      apply row_id_inj in E; lia.
    + apply IH; [lia | lia | done].
Qed.

Lemma resolve_name s n i : resolve s n = Ok i -> f_name (field_at s i) = n.
Proof.
  unfold resolve, field_at. revert i.
  induction s as [|f s IH]; intros i; simpl; [done |].
  destruct (decide (n = f_name f)) as [-> | Hne]; simpl.
  - by intros [= <-].
  - destruct (field_index n s) as [j|]; simpl; [|done].
    intros [= <-]. simpl. by apply IH.
Qed.

Lemma mapM_resolve_names s names idx :
  mapM (resolve s) names = Ok idx ->
  map f_name (map (field_at s) idx) = names.
Proof.
  revert idx. induction names as [|n names IH]; intros idx; simpl.
  - by intros [= <-].
  - intros H. apply bind_ok in H as (i & Hi & H).
    apply bind_ok in H as (idx' & Hidx & H). injection H as <-.
    simpl. f_equal; [by apply resolve_name | by apply IH].
Qed.

Lemma field_index_names n s s' :
  map f_name s = map f_name s' -> field_index n s = field_index n s'.
Proof.
  revert s'. induction s as [|f s IH]; intros [|f' s']; simpl; try done.
  intros [= Hf Hs]. rewrite Hf. by rewrite (IH s' Hs).
Qed.

Lemma field_index_fresh n s f :
  field_index n s = None -> f_name f = n ->
  field_index n (s ++ [f]) = Some (length s).
Proof.
  intros Hn Hf. induction s as [|g s IH]; simpl in *.
  - by rewrite decide_True.
  - destruct (decide (n = f_name g)); [done |].
    destruct (field_index n s); [done |]. by rewrite IH.
Qed.

Lemma sql_songplays_shape spark joined :
  sql_songplays spark = Ok joined ->
  map f_name (schema joined) = songplays_columns
  /\ forall rs, rows joined = Ok rs -> Forall (fun r => length r = 10%nat) rs.
Proof.
  unfold sql_songplays. intros H.
  apply bind_ok in H as (lt & _ & H). apply bind_ok in H as (st & _ & H).
  apply bind_ok in H as (tt & _ & H).
  apply bind_ok in H as (lsel & Hl & H). apply bind_ok in H as (ssel & Hs & H).
  apply bind_ok in H as (tsel & Ht & H).
  apply bind_ok in H as (s_name & _ & H). apply bind_ok in H as (l_artist & _ & H).
  apply bind_ok in H as (t_start & _ & H). apply bind_ok in H as (l_start & _ & H).
  injection H as <-. cbn [schema rows]. split.
  - rewrite !map_app.
    by rewrite (mapM_resolve_names _ _ _ Hl), (mapM_resolve_names _ _ _ Hs),
               (mapM_resolve_names _ _ _ Ht).
  - intros rs H.
    apply bind_ok in H as (lrs & _ & H). apply bind_ok in H as (srs & _ & H).
    apply bind_ok in H as (trs & _ & H). injection H as <-.
    apply Forall_forall. intros r Hr.
    rewrite elem_of_remove_dups in Hr. apply list_elem_of_In in Hr.
    apply List.in_flat_map in Hr as (l & _ & Hr).
    apply List.in_flat_map in Hr as (s & _ & Hr).
    destruct (is_true _); [| by destruct Hr].
    apply List.in_flat_map in Hr as (t & _ & Hr).
    destruct (is_true _); [| by destruct Hr].
    destruct Hr as [<- | []].
    rewrite !length_app, !length_map.
    apply mapM_length in Hl, Hs, Ht. by rewrite Hl, Hs, Ht.
Qed.

Lemma number_rows_length s n pid i p :
  length (number_rows s n pid i p) = length p.
Proof. revert i. induction p as [|r p IH]; intros i; simpl; [done | by rewrite IH]. Qed.

Lemma number_partitions_length s n pid ps :
  length (number_partitions s n pid ps) = length (concat ps).
Proof.
  revert pid. induction ps as [|p ps IH]; intros pid; simpl; [done |].
  by rewrite !length_app, number_rows_length, IH.
Qed.

(** C8.  Within a run, the songplay_id values of the songplays rows are
    pairwise different, and every row of the join has one, provided the
    engine lays the rows out in at most 2^31 partitions of at most 2^33
    rows each (the limits of [monotonically_increasing_id]).  The ids
    are not contiguous and depend on the layout. *)
Theorem songplay_ids_unique :
  forall layout spark joined rs sp out,
    sql_songplays spark = Ok joined ->
    rows joined = Ok rs ->
    concat (layout rs) ≡ₚ rs ->
    Z.of_nat (length (layout rs)) <= 2 ^ 31 ->
    Forall (fun p => Z.of_nat (length p) <= 2 ^ 33) (layout rs) ->
    songplays_table layout spark = Ok sp ->
    rows sp = Ok out ->
    NoDup (map (cell (schema sp) "songplay_id") out)
    /\ Forall (fun c => exists id, c = Some (VLong id))
         (map (cell (schema sp) "songplay_id") out)
    /\ length out = length rs.
Proof.
  intros layout spark joined rs sp out Hsql Hrs Hperm Hparts Hsizes Hsp Hout.
  destruct (sql_songplays_shape _ _ Hsql) as [Hnames Hlen].
  specialize (Hlen rs Hrs).
  assert (Hfresh : field_index "songplay_id" (schema joined) = None).
  { rewrite (field_index_names _ _
               (map (fun n => mkField n NullType true) songplays_columns));
      [done | by rewrite Hnames]. }
  assert (Hwidth : length (schema joined) = 10%nat).
  { by rewrite <- (length_map f_name), Hnames. }
  unfold songplays_table in Hsp. rewrite Hsql in Hsp. cbn [bind] in Hsp.
  unfold withColumn_monotonically_increasing_id in Hsp. injection Hsp as <-.
  cbn [schema rows] in *. rewrite Hrs in Hout. cbn [bind] in Hout.
  injection Hout as <-.
  unfold set_field. cbn [f_name]. rewrite Hfresh.
  assert (Hcell : forall r,
             cell (schema joined ++ [mkField "songplay_id" LongType false])
               "songplay_id" r = cell_at r 10).
  { intros r. unfold cell. by rewrite (field_index_fresh _ _ _ Hfresh), Hwidth. }
  rewrite (map_ext _ _ Hcell).
  rewrite (number_partitions_ids _ _ _ _ 10 Hfresh).
  2: { apply Forall_forall. intros p Hp. apply Forall_forall. intros r Hr.
       rewrite Forall_forall in Hlen. apply Hlen. rewrite <- Hperm.
       apply list_elem_of_In, List.in_concat. exists p.
       split; by apply list_elem_of_In. }
  split; [| split].
  - apply NoDup_fmap_2; [intros x y [= ->]; done |].
    apply partition_ids_NoDup; [lia | lia | done].
  - apply Forall_forall. intros c Hc.
    apply list_elem_of_fmap in Hc as (id & -> & _). eauto.
  - rewrite number_partitions_length. by rewrite Hperm.
Qed.

Lemma songplay_ids_unique_witness :
  NoDup (map (cell (schema songplays_two_plays) "songplay_id")
           songplays_rows_two_plays)
  /\ map (cell (schema songplays_two_plays) "songplay_id")
       songplays_rows_two_plays
     = [Some (VLong 0); Some (VLong 8589934592)].
Proof.
  assert (H1 : sql_songplays registered_two_plays = Ok joined_two_plays)
    by (vm_compute; reflexivity).
  assert (H2 : rows joined_two_plays = Ok joined_rows_two_plays)
    by (vm_compute; reflexivity).
  assert (H3 : concat (first_apart joined_rows_two_plays) ≡ₚ joined_rows_two_plays)
    by (vm_compute; reflexivity).
  assert (H4 : Z.of_nat (length (first_apart joined_rows_two_plays)) <= 2 ^ 31)
    by (vm_compute; discriminate).
  assert (H5 : Forall (fun p : list Row => Z.of_nat (length p) <= 2 ^ 33)
                 (first_apart joined_rows_two_plays))
    by (repeat constructor; vm_compute; discriminate).
  assert (H6 : songplays_table first_apart registered_two_plays
               = Ok songplays_two_plays) by (vm_compute; reflexivity).
  assert (H7 : rows songplays_two_plays = Ok songplays_rows_two_plays)
    by (vm_compute; reflexivity).
  split; [| by vm_compute].
  exact (proj1 (songplay_ids_unique first_apart registered_two_plays
                  joined_two_plays joined_rows_two_plays songplays_two_plays
                  songplays_rows_two_plays H1 H2 H3 H4 H5 H6 H7)).
Defined.

(** * Further properties of the pipelines *)

Lemma is_ok_bind_false {A B} (r : result A) (k : A -> result B) :
  is_ok r = false -> is_ok (bind r k) = false.
Proof. by destruct r. Qed.

Lemma mapM_raise_elem {A B} (f : A -> result B) (l : list A) (a : A) :
  a ∈ l -> is_ok (f a) = false -> is_ok (mapM f l) = false.
Proof.
  induction l as [|x l IH]; intros Ha Hf.
  - by apply elem_of_nil in Ha.
  - simpl. apply elem_of_cons in Ha as [<- | Ha].
    + by destruct (f a).
    + destruct (f x); [|done]. simpl.
      specialize (IH Ha Hf). by destruct (mapM f l).
Qed.

Lemma select_rows_raise df names df' :
  select df names = Ok df' -> is_ok (rows df) = false ->
  is_ok (rows df') = false.
Proof.
  unfold select. intros H Hr. apply bind_ok in H as (idx & _ & H).
  injection H as <-. simpl. by destruct (rows df).
Qed.

Lemma parquet_rows_raise df cols path spark :
  is_ok (rows df) = false ->
  is_ok (parquet (partitionBy cols (write df)) path spark) = false.
Proof.
  intros Hr. unfold parquet; simpl. destruct (mapM _ _); simpl; [|done].
  destruct (tables spark !! path); [done |]. by destruct (rows df).
Qed.

(** A successful write with the default mode found the location free
    and stored there the rows of the frame. *)
Lemma parquet_default_mode_ok df cols path spark spark' :
  parquet (partitionBy cols (write df)) path spark = Ok spark' ->
  tables spark !! path = None
  /\ exists rs, rows df = Ok rs
                /\ spark' = put_table path (written cols (schema df) rs) spark.
Proof.
  unfold parquet; simpl. destruct (mapM _ _); simpl; [|done].
  destruct (tables spark !! path); [done |].
  destruct (rows df) as [rs|]; simpl; [|done].
  intros [= <-]. eauto.
Qed.

Section More.
Variable tz : Z -> Z.
Variable F_to_date : Cell -> result Cell.
Variable layout : list Row -> list (list Row).

(** Once the rows of the frame with the time columns cannot be
    computed, the pipeline cannot complete. *)
Lemma log_pipeline_raises_if_rows_raise spark input_data output_data recs :
  objects spark !! log_data_path input_data = Some recs ->
  (forall d,
      derive_time_columns tz F_to_date
        (mkFrame log_data_schema
           (Ok (List.filter is_next_song
                  (map (from_json log_data_schema) recs)))) = Ok d ->
      is_ok (rows d) = false) ->
  is_ok (process_log_data tz F_to_date layout spark input_data output_data)
  = false.
Proof.
  intros Hrecs Hrows. unfold process_log_data.
  rewrite filtered_log_spec, Hrecs. cbn [bind].
  destruct (users_table _) as [users|]; [|done]. cbn [bind].
  destruct (parquet _ _ spark) as [s1|]; [|done]. cbn [bind].
  destruct (derive_time_columns _ _ _) as [d|] eqn:Hd; [|done]. cbn [bind].
  specialize (Hrows d eq_refl).
  destruct (time_table d) as [time|] eqn:Ht; [|done]. cbn [bind].
  apply is_ok_bind_false, parquet_rows_raise.
  by apply (select_rows_raise _ _ _ Ht).
Qed.

(** The rows of the frame with the time columns cannot be computed
    when the two udf columns (lines 143 to 148) cannot. *)
Lemma derive_rows_raise rs d :
  derive_time_columns tz F_to_date (mkFrame log_data_schema (Ok rs)) = Ok d ->
  is_ok (x1 <- mapM (fun r => v <- get_timestamp (cell log_data_schema "ts" r) ;;
                              Ok (r ++ [v])) rs ;;
         mapM (fun r => v <- get_datetime F_to_date (cell log_data_schema "ts" r) ;;
                        Ok (r ++ [v])) x1) = false ->
  is_ok (rows d) = false.
Proof.
  intros Hd HX. unfold derive_time_columns in Hd.
  do 7 (erewrite withColumn_fresh in Hd by reflexivity; cbn [bind] in Hd).
  erewrite withColumn_fresh in Hd by reflexivity.
  injection Hd as <-. cbn [rows bind].
  do 6 apply is_ok_bind_false. exact HX.
Qed.

(** X9.  A NextSong record whose ts is absent or null makes
    [process_log_data] raise, whatever [F.to_date] does: the udf of line
    143 divides [None] by 1000. *)
Theorem null_ts_raises :
  forall spark input_data output_data recs r,
    objects spark !! log_data_path input_data = Some recs ->
    r ∈ recs ->
    is_next_song (from_json log_data_schema r) = true ->
    cell log_data_schema "ts" (from_json log_data_schema r) = None ->
    is_ok (process_log_data tz F_to_date layout spark input_data output_data)
    = false.
Proof.
  intros spark i o recs r Hrecs Hr Hnext Hts.
  apply (log_pipeline_raises_if_rows_raise spark i o recs Hrecs).
  intros d Hd. apply (derive_rows_raise _ _ Hd).
  apply is_ok_bind_false.
  apply (mapM_raise_elem _ _ (from_json log_data_schema r)).
  - apply list_elem_of_In, List.filter_In. split; [| done].
    apply List.in_map, list_elem_of_In, Hr.
  - by rewrite Hts.
Qed.
End More.

Lemma mapM_raise_all {A B} (f : A -> result B) (l : list A) :
  l <> [] -> (forall a, is_ok (f a) = false) -> is_ok (mapM f l) = false.
Proof.
  destruct l as [|a l]; [done |]. intros _ Hf. simpl.
  specialize (Hf a). by destruct (f a).
Qed.

(** X2.  With the engine's [F.to_date], a log source that holds at least
    one NextSong record makes [process_log_data] raise: the udf of line
    147 raises on every row, so the time table cannot be written. *)
Theorem next_song_record_raises :
  forall tz layout spark input_data output_data recs r,
    objects spark !! log_data_path input_data = Some recs ->
    r ∈ recs ->
    is_next_song (from_json log_data_schema r) = true ->
    is_ok (process_log_data tz to_date_on_worker layout spark
             input_data output_data) = false.
Proof.
  intros tz layout spark i o recs r Hrecs Hr Hnext.
  apply (log_pipeline_raises_if_rows_raise tz _ layout spark i o recs Hrecs).
  intros d Hd. apply (derive_rows_raise _ _ _ _ Hd).
  destruct (mapM _ _) as [x1|] eqn:E; [|done]. cbn [bind].
  apply mapM_raise_all; [| done].
  apply mapM_length in E. intros ->. simpl in E.
  assert (Hin : In (from_json log_data_schema r)
                  (List.filter is_next_song (map (from_json log_data_schema) recs))).
  { apply List.filter_In. split; [| done]. apply List.in_map, list_elem_of_In, Hr. }
  destruct (List.filter _ _); [done | discriminate].
Qed.

(** X1.  [main] never reaches the log pipeline: for every session it ends
    with the exception of [process_song_data], the missing song source
    or the unresolved column [title]. *)
Theorem main_stops_in_song_pipeline :
  forall tz F_to_date layout spark,
    main tz F_to_date layout spark
    = match objects spark !! song_data_path "s3a://udacity-dend/" with
      | Some _ => Raise (unresolved "title")
      | None => Raise (AnalysisException
                         ("Path does not exist: "
                          +:+ song_data_path "s3a://udacity-dend/"))
      end.
Proof.
  intros tz F layout spark. unfold main.
  rewrite process_song_data_raises.
  by destruct (objects spark !! song_data_path "s3a://udacity-dend/").
Qed.

(** X7.  Lines 117 and 134.  A missing log source raises.  Otherwise the
    filtered frame has the declared schema and its rows are those of the
    records whose page reads as the string NextSong, all of them and in
    the order of the source. *)
Theorem filtered_log_rows :
  forall tz spark input_data,
    (objects spark !! log_data_path input_data = None ->
     filtered_log tz spark input_data
     = Raise (AnalysisException
                ("Path does not exist: " +:+ log_data_path input_data)))
    /\ (forall recs,
          objects spark !! log_data_path input_data = Some recs ->
          exists log_df rs,
            filtered_log tz spark input_data = Ok log_df
            /\ schema log_df = log_data_schema
            /\ rows log_df = Ok rs
            /\ rs = map (from_json log_data_schema)
                      (List.filter
                         (fun r => bool_decide
                                     (coerce StringType (json_get "page" r)
                                      = Some (VString "NextSong")))
                         recs)).
Proof.
  intros tz spark i. rewrite filtered_log_spec. split.
  - by intros ->.
  - intros recs ->. eexists; eexists. split; [reflexivity |].
    split; [reflexivity |]. split; [reflexivity |].
    induction recs as [|r recs IH]; [done |].
    cbn [map List.filter]. rewrite IH.
    unfold is_next_song. rewrite page_cell_from_json.
    by destruct (bool_decide _).
Qed.

(** X8.  When the users location already holds content and the log
    source exists, [process_log_data] ends at line 140 with the error of
    that location, whatever the records are. *)
Theorem users_location_taken_raises :
  forall tz F_to_date layout spark input_data output_data recs old,
    objects spark !! log_data_path input_data = Some recs ->
    tables spark !! (output_data +:+ "users_table.parquet") = Some old ->
    process_log_data tz F_to_date layout spark input_data output_data
    = Raise (already_exists (output_data +:+ "users_table.parquet")).
Proof.
  intros tz F layout spark i o recs old Hrecs Hold.
  unfold process_log_data. rewrite filtered_log_spec, Hrecs. cbn [bind].
  destruct (users_table_rows
              (List.filter is_next_song (map (from_json log_data_schema) recs)))
    as (users & -> & _). cbn [bind].
  pose proof (parquet_default_mode_exists users [] _ spark old [] eq_refl Hold)
    as H.
  change (partitionBy [] (write users)) with (write users) in H.
  by rewrite H.
Qed.

Lemma dayofweek_range tz t : 1 <= Calendar.dayofweek tz t <= 7.
Proof. unfold Calendar.dayofweek. Z.div_mod_to_equations. lia. Qed.

(** X11.  Lines 152 and 156 derive day and weekday with the same
    function: in every row of the time table the two are equal, between
    1 (Sunday) and 7 (Saturday). *)
Theorem time_day_is_weekday :
  forall tz F_to_date spark input_data log_df derived time rs row,
    filtered_log tz spark input_data = Ok log_df ->
    derive_time_columns tz F_to_date log_df = Ok derived ->
    time_table derived = Ok time ->
    rows time = Ok rs ->
    row ∈ rs ->
    exists d,
      cell (schema time) "day" row = Some (VInt d)
      /\ cell (schema time) "weekday" row = Some (VInt d)
      /\ 1 <= d <= 7.
Proof.
  intros tz F spark input log_df d time rs row Hlog Hd Ht Hrs Hrow.
  rewrite filtered_log_spec in Hlog.
  destruct (objects spark !! log_data_path input) as [recs|]; [|done].
  injection Hlog as <-.
  destruct (time_table_row_inv tz F
              (List.filter is_next_song (map (from_json log_data_schema) recs))
              d time rs row) as (Hs & r & _ & Hr);
    [| exact Hd | exact Ht | exact Hrs | exact Hrow |].
  { apply Forall_forall. intros r Hr. apply list_elem_of_In in Hr.
    apply List.filter_In in Hr as [Hr _]. apply List.in_map_iff in Hr as (j & <- & _).
    apply from_json_length. }
  rewrite Hs. unfold time_row in Hr.
  destruct (get_timestamp _) as [t|] eqn:Et; [|done].
  apply get_timestamp_ok in Et as (micros & ->).
  destruct (get_datetime F _) as [st|]; [|done].
  injection Hr as <-.
  exists (Calendar.dayofweek tz micros).
  split; [reflexivity |]. split; [reflexivity | apply dayofweek_range].
Qed.

Lemma output_paths_distinct (o : string) :
  o +:+ "users_table.parquet" <> o +:+ "time_table.parquet"
  /\ o +:+ "users_table.parquet" <> o +:+ "songplays_table.parquet"
  /\ o +:+ "time_table.parquet" <> o +:+ "songplays_table.parquet".
Proof. repeat split; intros H; by apply append_inj_r in H. Qed.

Section Outcome.
Variable tz : Z -> Z.
Variable F_to_date : Cell -> result Cell.
Variable layout : list Row -> list (list Row).

(** A run that completes has gone through the three writes. *)
Lemma completed_run_inv :
  forall spark input_data output_data spark',
    process_log_data tz F_to_date layout spark input_data output_data
    = Ok spark' ->
    exists users time songplays urs trs srs,
      log_frames tz F_to_date layout spark input_data
      = Ok (users, time, songplays)
      /\ rows users = Ok urs /\ rows time = Ok trs /\ rows songplays = Ok srs
      /\ tables spark !! (output_data +:+ "users_table.parquet") = None
      /\ tables spark !! (output_data +:+ "time_table.parquet") = None
      /\ tables spark !! (output_data +:+ "songplays_table.parquet") = None
      /\ objects spark' = objects spark
      /\ tables spark'
         = <[output_data +:+ "songplays_table.parquet"
             := written ["year"; "month"] (schema songplays) srs]>
             (<[output_data +:+ "time_table.parquet"
                := written ["year"; "month"] (schema time) trs]>
                (<[output_data +:+ "users_table.parquet"
                   := written [] (schema users) urs]> (tables spark))).
Proof.
  intros spark i o spark' H. unfold process_log_data in H.
  destruct (output_paths_distinct o) as (Hut & Hus & Hts).
  apply bind_ok in H as (log_df & Hlog & H).
  apply bind_ok in H as (users & Hu & H).
  apply bind_ok in H as (s1 & Hw1 & H).
  apply bind_ok in H as (d & Hd & H).
  apply bind_ok in H as (time & Ht & H).
  apply bind_ok in H as (s2 & Hw2 & H).
  apply bind_ok in H as (song_df & Hsong & H).
  apply bind_ok in H as (sp & Hsp & Hw3).
  apply (parquet_default_mode_ok users []) in Hw1 as (F1 & urs & Hurs & ->).
  apply parquet_default_mode_ok in Hw2 as (F2 & trs & Htrs & ->).
  apply parquet_default_mode_ok in Hw3 as (F3 & srs & Hsrs & ->).
  cbn [tables put_table register_views createOrReplaceTempView objects] in *.
  rewrite lookup_insert_ne in F2 by done.
  rewrite !lookup_insert_ne in F3 by done.
  exists users, time, sp, urs, trs, srs.
  split.
  { unfold log_frames. rewrite Hlog. cbn [bind]. rewrite Hu. cbn [bind].
    rewrite Hd. cbn [bind]. rewrite Ht. cbn [bind].
    unfold reread_song_data, read_json in *. cbn [objects put_table] in Hsong.
    rewrite Hsong. cbn [bind].
    unfold songplays_table in *.
    erewrite sql_songplays_views; [rewrite Hsp; reflexivity | reflexivity]. }
  do 7 (split; [done |]). done.
Qed.

(** X5.  A run of [process_log_data] that completes has built the three
    frames and computed their rows, found the three output locations
    free, left the sources and every other location as they were, and
    holds at the three locations the rows of the users, time and
    songplays frames. *)
Theorem completed_run_wrote_three_tables :
  forall spark input_data output_data spark',
    process_log_data tz F_to_date layout spark input_data output_data
    = Ok spark' ->
    exists users time songplays urs trs srs tu tt ts,
      log_frames tz F_to_date layout spark input_data
      = Ok (users, time, songplays)
      /\ rows users = Ok urs /\ rows time = Ok trs /\ rows songplays = Ok srs
      /\ Forall (fun path => tables spark !! path = None)
           (log_output_paths output_data)
      /\ objects spark' = objects spark
      /\ (forall path, path ∉ log_output_paths output_data ->
                       tables spark' !! path = tables spark !! path)
      /\ tables spark' !! (output_data +:+ "users_table.parquet") = Some tu
      /\ tables spark' !! (output_data +:+ "time_table.parquet") = Some tt
      /\ tables spark' !! (output_data +:+ "songplays_table.parquet") = Some ts
      /\ t_rows tu = urs /\ t_rows tt = trs /\ t_rows ts = srs.
Proof.
  intros spark i o spark' H.
  destruct (output_paths_distinct o) as (Hut & Hus & Hts).
  destruct (completed_run_inv spark i o spark' H)
    as (users & time & sp & urs & trs & srs & Hf & Hu & Ht & Hs
        & F1 & F2 & F3 & Hobj & Htab).
  exists users, time, sp, urs, trs, srs.
  eexists; eexists; eexists.
  split; [exact Hf |]. split; [exact Hu |]. split; [exact Ht |].
  split; [exact Hs |].
  split; [by repeat (apply Forall_cons; split) |].
  split; [exact Hobj |]. rewrite Htab. split.
  { intros path Hp. unfold log_output_paths in Hp.
    rewrite !not_elem_of_cons in Hp. destruct Hp as (P1 & P2 & P3 & _).
    by rewrite !lookup_insert_ne by done. }
  split; [by rewrite !lookup_insert_ne, lookup_insert_eq by done |].
  split; [by rewrite lookup_insert_ne, lookup_insert_eq by done |].
  split; [by rewrite lookup_insert_eq |].
  split; [| split].
  - unfold written. by destruct urs.
  - unfold written. by destruct trs.
  - unfold written. by destruct srs.
Qed.





End Outcome.















Lemma null_ts_raises_witness :
  is_ok (process_log_data utc to_seconds one_partition
           (session [song_S1] [log_U1; log_no_ts]) bucket bucket) = false.
Proof.
  apply (null_ts_raises utc to_seconds one_partition
           (session [song_S1] [log_U1; log_no_ts]) bucket bucket
           [log_U1; log_no_ts] log_no_ts).
  - by vm_compute.
  - apply elem_of_cons; right. apply list_elem_of_here.
  - by vm_compute.
  - by vm_compute.
Defined.

Lemma next_song_record_raises_witness :
  is_ok (process_log_data utc to_date_on_worker one_partition
           (session [song_S1] [log_home; log_U1]) bucket bucket) = false.
Proof.
  apply (next_song_record_raises utc one_partition
           (session [song_S1] [log_home; log_U1]) bucket bucket
           [log_home; log_U1] log_U1).
  - by vm_compute.
  - apply elem_of_cons; right. apply list_elem_of_here.
  - by vm_compute.
Defined.

Lemma filtered_log_rows_witness :
  exists log_df rs,
    filtered_log utc (session [song_S1] [log_U1; log_home]) bucket = Ok log_df
    /\ schema log_df = log_data_schema
    /\ rows log_df = Ok rs
    /\ rs = map (from_json log_data_schema) [log_U1].
Proof.
  apply (proj2 (filtered_log_rows utc (session [song_S1] [log_U1; log_home]) bucket)
           [log_U1; log_home]).
  by vm_compute.
Defined.

Lemma users_location_taken_raises_witness :
  process_log_data utc to_seconds one_partition session_with_prior_users
    bucket bucket
  = Raise (already_exists (bucket +:+ "users_table.parquet")).
Proof.
  apply (users_location_taken_raises utc to_seconds one_partition
           session_with_prior_users bucket bucket [log_U1] stale_users).
  - by vm_compute.
  - by vm_compute.
Defined.

Lemma time_day_is_weekday_witness :
  exists d,
    cell time_schema "day" time_row_U1 = Some (VInt d)
    /\ cell time_schema "weekday" time_row_U1 = Some (VInt d)
    /\ 1 <= d <= 7.
Proof.
  assert (H1 : filtered_log utc (session [song_S1] [log_U1]) bucket
               = Ok log_frame_U1) by (vm_compute; reflexivity).
  assert (H2 : derive_time_columns utc to_seconds log_frame_U1
               = Ok derived_frame_U1) by (vm_compute; reflexivity).
  assert (H3 : time_table derived_frame_U1 = Ok time_frame_U1)
    by (vm_compute; reflexivity).
  assert (H4 : rows time_frame_U1 = Ok [time_row_U1])
    by (vm_compute; reflexivity).
  exact (time_day_is_weekday utc to_seconds (session [song_S1] [log_U1]) bucket
           log_frame_U1 derived_frame_U1 time_frame_U1 [time_row_U1] time_row_U1
           H1 H2 H3 H4 (list_elem_of_here _ _)).
Defined.

Lemma completed_run_wrote_three_tables_witness :
  exists users time songplays urs trs srs tu tt ts,
    log_frames utc to_seconds one_partition (session [song_S1] [log_U1]) bucket
    = Ok (users, time, songplays)
    /\ rows users = Ok urs /\ rows time = Ok trs /\ rows songplays = Ok srs
    /\ Forall (fun path => tables (session [song_S1] [log_U1]) !! path = None)
         (log_output_paths bucket)
    /\ objects run_U1 = objects (session [song_S1] [log_U1])
    /\ (forall path, path ∉ log_output_paths bucket ->
                     tables run_U1 !! path
                     = tables (session [song_S1] [log_U1]) !! path)
    /\ tables run_U1 !! (bucket +:+ "users_table.parquet") = Some tu
    /\ tables run_U1 !! (bucket +:+ "time_table.parquet") = Some tt
    /\ tables run_U1 !! (bucket +:+ "songplays_table.parquet") = Some ts
    /\ t_rows tu = urs /\ t_rows tt = trs /\ t_rows ts = srs.
Proof.
  apply (completed_run_wrote_three_tables utc to_seconds one_partition
           (session [song_S1] [log_U1]) bucket bucket run_U1).
  vm_compute; reflexivity.
Defined.



(** ** The five writes *)


Section Writes.
Variable tz : Z -> Z.
Variable F_to_date : Cell -> result Cell.
Variable layout : list Row -> list (list Row).


End Writes.


